(** * soldol: the USD->PEN dashboard script [currency.py]

    A shallow embedding of the script's data helpers, of its averaging and
    guidance computation and of one top-to-bottom run of the script, followed
    by the properties of the specification that were checked against it.

    Numbers are Python floats, i.e. IEEE-754 binary64 values; they are
    modelled with the executable specification of binary floating point of
    the standard library ([SpecFloat]), instantiated at 53 bits of precision.
    Instants are integers counting microseconds, the resolution of
    [datetime]. *)

From Stdlib Require Import ZArith List Bool Lia.
From Stdlib Require Import Floats.SpecFloat.
From stdpp Require Import base option gmap.
Import ListNotations.
Open Scope Z_scope.

(* ===================================================================== *)
(** ** Python floats *)
(* ===================================================================== *)

Module Float64.

Definition prec : Z := 53.
Definition emax : Z := 1024.

Definition float : Type := spec_float.

Definition fadd : float -> float -> float := SFadd prec emax.
Definition fsub : float -> float -> float := SFsub prec emax.
Definition fmul : float -> float -> float := SFmul prec emax.
Definition fdiv : float -> float -> float := SFdiv prec emax.

(** [x < y], [x <= y] and [x == y]; all three are false on a NaN. *)
Definition flt : float -> float -> bool := SFltb.
Definition fle : float -> float -> bool := SFleb.
Definition feq : float -> float -> bool := SFeqb.

Definition is_nan (x : float) : bool :=
  match x with S754_nan => true | _ => false end.

Definition is_finite (x : float) : bool :=
  match x with S754_zero _ | S754_finite _ _ _ => true | _ => false end.

(** [float(z)] for an integer [z], correctly rounded. *)
Definition of_Z (z : Z) : float := binary_normalize prec emax z 0 false.

(** The float a decimal literal [n/d] denotes: the binary64 value nearest
    to the quotient.  Division is correctly rounded and the operands used
    below are exactly representable. *)
Definition decimal (n d : Z) : float := fdiv (of_Z n) (of_Z d).

(** Integer true division [n / d] with a positive divisor, correctly
    rounded whatever the size of [n] (Python rounds the exact quotient
    once). *)
Definition int_true_div (n : Z) (d : positive) : float :=
  match n with
  | Z0 => S754_zero false
  | Zpos a =>
      let '(q, e, l) := SFdiv_core_binary prec emax (Zpos a) 0 (Zpos d) 0 in
      binary_round_aux prec emax false q e l
  | Zneg a =>
      let '(q, e, l) := SFdiv_core_binary prec emax (Zpos a) 0 (Zpos d) 0 in
      binary_round_aux prec emax true q e l
  end.

(** [int(x)]: truncation toward zero; raises ([None]) on NaN and on the
    infinities. *)
Definition int_of_float (x : float) : option Z :=
  match x with
  | S754_zero _ => Some 0
  | S754_finite s m e => Some (cond_Zopp s (Z.shiftl (Zpos m) e))
  | S754_infinity _ | S754_nan => None
  end.

(** [max(0, x)]: the builtin keeps its first argument unless a later one
    is strictly greater.  The integer [0] it may return is used only in
    float contexts afterwards and is represented by [+0.0]. *)
Definition max0 (x : float) : float :=
  if flt (S754_zero false) x then x else S754_zero false.

(** The literals of the script. *)
Definition f0_0  : float := S754_zero false.
Definition f0_20 : float := S754_finite false 7205759403792794 (-55).
Definition f0_30 : float := S754_finite false 5404319552844595 (-54).
Definition f0_5  : float := S754_finite false 4503599627370496 (-53).
Definition f0_50 : float := f0_5.
Definition f1    : float := S754_finite false 4503599627370496 (-52).
Definition f60   : float := S754_finite false 8444249301319680 (-47).

(** [m * 2^e] is within half a unit in the last place of [n/d], for a
    negative exponent [e]: the defining property of the literal [n/d]. *)
Definition nearest_to (n d : Z) (x : float) : Prop :=
  match x with
  | S754_finite false m (Zneg p) =>
      valid_binary prec emax x = true /\
      2 * Z.abs (d * Zpos m - n * 2 ^ Zpos p) <= d
  | _ => False
  end.

(** Comparison of two finite floats of the same sign is the lexicographic
    comparison of exponent and mantissa. *)
Definition lex_compare (e1 : Z) (m1 : positive) (e2 : Z) (m2 : positive)
  : comparison :=
  match Z.compare e1 e2 with
  | Lt => Lt
  | Gt => Gt
  | Eq => Pos.compare m1 m2
  end.



End Float64.

Import Float64.

(* ===================================================================== *)
(** ** Sequences, series and frames *)
(* ===================================================================== *)

Module Pandas.

(** Python's normalisation of the lower bound of a slice [l[start:]]: a
    negative bound counts from the end, and both kinds are clipped to the
    sequence. *)
Definition slice_start (start : Z) (n : Z) : Z :=
  if start <? 0 then Z.max (start + n) 0 else Z.min start n.

(** [l[start:]] *)
Definition slice_from {A : Type} (start : Z) (l : list A) : list A :=
  skipn (Z.to_nat (slice_start start (Z.of_nat (length l)))) l.

(** [l[i]] for a possibly negative position; [None] is [IndexError]. *)
Definition item {A : Type} (i : Z) (l : list A) : option A :=
  let n := Z.of_nat (length l) in
  let j := if i <? 0 then i + n else i in
  if (0 <=? j) && (j <? n) then nth_error l (Z.to_nat j) else None.

(** A Series: labelled float values in index order. *)
Definition Series : Type := list (Z * float).

(** A frame of the feed.  Only its Close column is ever read. *)
Record Row : Type := { index : Z; Close : float }.
Definition DataFrame : Type := list Row.

(** [df.empty], [series.empty] *)
Definition empty {A : Type} (l : list A) : bool :=
  match l with [] => true | _ :: _ => false end.

(** [df["Close"]] *)
Definition Close_column (df : DataFrame) : Series :=
  map (fun r => (index r, Close r)) df.

(** [.dropna()] *)
Definition dropna (s : Series) : Series :=
  List.filter (fun p => negb (is_nan (snd p))) s.

Definition values (s : Series) : list float := map snd s.

(** [s.iloc[i]] *)
Definition iloc (i : Z) (s : Series) : option float := item i (values s).

(** [len(s)] *)
Definition len {A : Type} (l : list A) : Z := Z.of_nat (length l).

End Pandas.

Import Pandas.

(** The last [k] entries of a sequence, stated without reference to
    slicing: used to say what an average ranges over. *)
Definition last_entries {A : Type} (k : nat) (l : list A) : list A :=
  rev (firstn k (rev l)).

(** A mean computed the obvious way, left to right in binary64: one
    function the parameter [mean] of the next section can be instantiated
    with.  [Series.mean] itself belongs to pandas and its order of
    summation is not fixed by the script. *)
Definition fsum (xs : list float) : float := fold_left fadd xs f0_0.

Definition mean_ltr (xs : list float) : float :=
  fdiv (fsum xs) (of_Z (len xs)).

(* ===================================================================== *)
(** ** Section 7 of the script: averages and buy/wait guidance *)
(* ===================================================================== *)

Inductive Recommendation : Type := BUY | WAIT_SELL.

(** [score = 0.0] followed by the three conditional increments. *)
Definition score (current_rate a7 a30 a365 : float) : float :=
  let score := f0_0 in
  let score := if flt current_rate a365 then fadd score f0_30 else score in
  let score := if flt current_rate a30 then fadd score f0_50 else score in
  let score := if flt current_rate a7 then fadd score f0_20 else score in
  score.

(** [if score > 0.5: st.success(BUY ...) else: st.warning(WAIT / SELL ...)] *)
Definition recommendation (score : float) : Recommendation :=
  if flt f0_5 score then BUY else WAIT_SELL.

(** The number of hundredths the conditions that hold add up to, in exact
    integer arithmetic. *)
Definition hundredths (current_rate a7 a30 a365 : float) : Z :=
  (if flt current_rate a365 then 30 else 0)
  + (if flt current_rate a30 then 50 else 0)
  + (if flt current_rate a7 then 20 else 0).

Section Averages.

(** [Series.mean] of pandas, applied to the values of a series. *)
Variable mean : list float -> float.

Definition avg7 (hist365 : Series) (current_rate : float) : float :=
  if 7 <=? len hist365 then mean (values (slice_from (-7) hist365))
  else current_rate.

Definition avg30 (hist365 : Series) (current_rate : float) : float :=
  if 30 <=? len hist365 then mean (values (slice_from (-30) hist365))
  else current_rate.

Definition avg365 (hist365 : Series) (current_rate : float) : float :=
  if 1 <=? len hist365 then mean (values hist365) else current_rate.

(** What the specification calls [rollingMean(series, windowDays)], written
    from its words: the mean of the last [windowDays] entries when there are
    that many, undefined otherwise. *)
Definition rollingMean_spec (series : Series) (windowDays : nat)
  : option float :=
  if Z.of_nat windowDays <=? len series
  then Some (mean (values (last_entries windowDays series)))
  else None.

(** The caller's substitution of the current rate for an undefined mean. *)
Definition average_spec (series : Series) (windowDays : nat)
  (current_rate : float) : float :=
  match rollingMean_spec series windowDays with
  | Some a => a
  | None => current_rate
  end.

Record Guidance : Type := {
  g_avg7 : float;
  g_avg30 : float;
  g_avg365 : float;
  g_score : float;
  g_recommendation : Recommendation
}.

Definition guidance (hist365 : Series) (current_rate : float) : Guidance :=
  let a7 := avg7 hist365 current_rate in
  let a30 := avg30 hist365 current_rate in
  let a365 := avg365 hist365 current_rate in
  let s := score current_rate a7 a30 a365 in
  {| g_avg7 := a7; g_avg30 := a30; g_avg365 := a365;
     g_score := s; g_recommendation := recommendation s |}.

End Averages.

(* ===================================================================== *)
(** ** Section 2 of the script: the data helpers *)
(* ===================================================================== *)

(** An instant or a duration, in microseconds. *)
Definition Time : Type := Z.

Definition seconds (n : Z) : Time := n * 1000000.

(** [timedelta.total_seconds()] *)
Definition total_seconds (d : Time) : float := int_true_div d 1000000.

(** [strftime("%Y-%m-%d %H:%M UTC")] keeps the instant down to its minute;
    the text is represented by the instant that starts that minute. *)
Definition strftime_minute (t : Time) : Time := t - t mod seconds 60.

(** What Yahoo Finance would answer to each of the three requests the
    script can make, at the time of a run. *)
Record Feed : Type := {
  intraday : DataFrame;      (* download(TICKER, period="1d", interval="1m") *)
  daily : DataFrame;         (* download(TICKER, period="1d") *)
  history : Z -> DataFrame   (* download(TICKER, start=today-days, end=today) *)
}.

(** The requests actually sent. *)
Inductive Download : Type := Intraday | Daily | History (days : Z).

Inductive Exn : Type :=
| IndexError        (* [.iloc[-1]] on an empty series *)
| KeyError          (* a key missing from the session state *)
| ConversionError.  (* [int()] of a NaN or of an infinity *)

Record Quote : Type := { rate : float; timestamp : Time }.

(** The body of [fetch_latest_rate], with the requests it sends. *)
Definition fetch_latest_rate (feed : Feed) (utcnow : Time)
  : (Exn + Quote) * list Download :=
  let df := intraday feed in
  let '(df, sent) :=
    if empty df then (daily feed, [Intraday; Daily]) else (df, [Intraday]) in
  match iloc (-1) (dropna (Close_column df)) with
  | None => (inl IndexError, sent)
  | Some rate =>
      (inr {| rate := rate; timestamp := strftime_minute utcnow |}, sent)
  end.

(** The body of [fetch_history]. *)
Definition fetch_history (feed : Feed) (days : Z) : Series * list Download :=
  let df := history feed days in
  let ser := dropna (Close_column df) in
  (ser, [History days]).

(* ===================================================================== *)
(** ** The Streamlit runtime, as far as the script relies on it *)
(* ===================================================================== *)

(** An entry of [st.cache_data]: the memoised result and when it was
    stored. *)
Record Cached (T : Type) : Type := { value : T; stored_at : Time }.
Arguments value {T} _.
Arguments stored_at {T} _.

(** An entry is served while it is younger than the time to live. *)
Definition fresh {T : Type} (ttl : Time) (now : Time) (c : Cached T) : bool :=
  now - stored_at c <? ttl.

Definition TTL_LATEST : Time := seconds (15 * 60).
Definition TTL_HISTORY : Time := seconds (60 * 60).

(** [st.session_state]: the two keys the script uses. *)
Record Session : Type := { fx : option Quote; loaded_at : option Time }.

(** ["fx" in st.session_state] *)
Definition has_key_fx (s : Session) : bool :=
  match fx s with Some _ => true | None => false end.

(** The widgets a run puts on the page.  Static text (title, headers,
    captions) is left out; numbers are kept as floats, before formatting. *)
Inductive Widget : Type :=
| RateCard (current_rate : float) (last_updated : Time)
| ConversionCard (usd_amount converted : float)
| HistoryChart (df_hist : Series) (current_rule : float)
| NoDataError
| MetricNow (current_rate : float)
| Metric (window_days : Z) (average delta : float)
| Success (score : float)
| Warning (score : float)
| Progress (fraction : float) (seconds_left : Z)
| Footer (last_updated : Time).

(** The state a run works on: what outlives the run (session, caches) and
    what the run produces (page, requests sent). *)
Record Run : Type := {
  session : Session;
  latest_cache : option (Cached Quote);
  history_cache : gmap Z (Cached Series);
  page : list Widget;
  sent : list Download
}.

(** How a run can end before its last line: a rerun request, issued after
    sleeping [delay] seconds, or an uncaught exception. *)
Inductive Stop : Type :=
| Rerun (delay : Z)
| Raised (e : Exn).

Definition Script (A : Type) : Type := Run -> Run * (Stop + A).

Definition ret {A : Type} (a : A) : Script A := fun r => (r, inr a).

Definition bind {A B : Type} (m : Script A) (k : A -> Script B) : Script B :=
  fun r =>
    match m r with
    | (r', inl s) => (r', inl s)
    | (r', inr a) => k a r'
    end.

Declare Scope script_scope.
Delimit Scope script_scope with script.
Notation "x <- m ;; k" := (bind m (fun x => k))
  (at level 100, m at next level, right associativity) : script_scope.
Notation "m ;;; k" := (bind m (fun _ => k))
  (at level 100, right associativity) : script_scope.
Open Scope script_scope.

Definition get : Script Run := fun r => (r, inr r).
Definition stop {A : Type} (s : Stop) : Script A := fun r => (r, inl s).
Definition raise {A : Type} (e : Exn) : Script A := stop (Raised e).

(** [st.experimental_rerun()], after [time.sleep(delay)] *)
Definition experimental_rerun {A : Type} (delay : Z) : Script A :=
  stop (Rerun delay).

Definition emit (w : Widget) : Script unit :=
  fun r => ({| session := session r; latest_cache := latest_cache r;
               history_cache := history_cache r;
               page := page r ++ [w]; sent := sent r |}, inr tt).

Definition send (ds : list Download) : Script unit :=
  fun r => ({| session := session r; latest_cache := latest_cache r;
               history_cache := history_cache r;
               page := page r; sent := sent r ++ ds |}, inr tt).

Definition set_session (s : Session) : Script unit :=
  fun r => ({| session := s; latest_cache := latest_cache r;
               history_cache := history_cache r;
               page := page r; sent := sent r |}, inr tt).

Definition set_latest_cache (c : Cached Quote) : Script unit :=
  fun r => ({| session := session r; latest_cache := Some c;
               history_cache := history_cache r;
               page := page r; sent := sent r |}, inr tt).

Definition set_history_cache (days : Z) (c : Cached Series) : Script unit :=
  fun r => ({| session := session r; latest_cache := latest_cache r;
               history_cache := <[days := c]> (history_cache r);
               page := page r; sent := sent r |}, inr tt).

(** [fetch_latest_rate()] as the script calls it, behind
    [@st.cache_data(ttl=15 * 60)]: a fresh entry is served without running
    the body; otherwise the body runs, and its result is stored unless it
    raised. *)
Definition cached_fetch_latest_rate (feed : Feed) (now : Time)
  : Script Quote :=
  r <- get ;;
  match latest_cache r with
  | Some c =>
      if fresh TTL_LATEST now c then ret (value c)
      else
        let '(res, ds) := fetch_latest_rate feed now in
        send ds ;;;
        match res with
        | inl e => raise e
        | inr q =>
            set_latest_cache {| value := q; stored_at := now |} ;;; ret q
        end
  | None =>
      let '(res, ds) := fetch_latest_rate feed now in
      send ds ;;;
      match res with
      | inl e => raise e
      | inr q => set_latest_cache {| value := q; stored_at := now |} ;;; ret q
      end
  end.

(** [fetch_history(days)] behind [@st.cache_data(ttl=60 * 60)], one entry
    per value of [days]. *)
Definition cached_fetch_history (feed : Feed) (now : Time) (days : Z)
  : Script Series :=
  r <- get ;;
  match history_cache r !! days with
  | Some c =>
      if fresh TTL_HISTORY now c then ret (value c)
      else
        let '(ser, ds) := fetch_history feed days in
        send ds ;;;
        set_history_cache days {| value := ser; stored_at := now |} ;;;
        ret ser
  | None =>
      let '(ser, ds) := fetch_history feed days in
      send ds ;;;
      set_history_cache days {| value := ser; stored_at := now |} ;;;
      ret ser
  end.

(* ===================================================================== *)
(** ** One run of the script, top to bottom *)
(* ===================================================================== *)

(** The options of the "History Window" select box. *)
Inductive Window : Type := Days7 | Days30 | Days365.

Definition days_of (w : Window) : Z :=
  match w with Days7 => 7 | Days30 => 30 | Days365 => 365 end.

(** The state of the sidebar and select-box widgets during a run. *)
Record Inputs : Type := {
  usd_amount : float;
  auto_refresh : bool;
  refresh_now : bool;   (* the "Refresh now" button reads True *)
  window : Window
}.

(** The readings of the clock a run takes, in program order: inside the
    quote helper and its cache, at [loaded_at = utcnow()], at the two calls
    of the history helper, and in the timer. *)
Record Clock : Type := {
  at_fetch : Time;
  at_load : Time;
  at_chart : Time;
  at_averages : Time;
  at_timer : Time
}.

(** Section 3: [if st.button("Refresh now"): st.experimental_rerun()] *)
Definition sidebar (inp : Inputs) : Script unit :=
  if refresh_now inp then experimental_rerun 0 else ret tt.

(** Section 4: load or refresh the quote, then read it back from the
    session. *)
Definition load_data (inp : Inputs) (feed : Feed) (clk : Clock)
  : Script Quote :=
  r <- get ;;
  (if auto_refresh inp || negb (has_key_fx (session r))
   then
     q <- cached_fetch_latest_rate feed (at_fetch clk) ;;
     set_session {| fx := Some q; loaded_at := Some (at_load clk) |}
   else ret tt) ;;;
  r <- get ;;
  match fx (session r) with
  | Some q => ret q
  | None => raise KeyError
  end.

(** Section 5: current rate and quick conversion. *)
Definition current_rate_and_conversion (inp : Inputs) (q : Quote)
  : Script unit :=
  let current_rate := rate q in
  emit (RateCard current_rate (timestamp q)) ;;;
  let converted := fmul (usd_amount inp) current_rate in
  emit (ConversionCard (usd_amount inp) converted).

(** Section 6: the adjustable chart, or the notice that replaces it. *)
Definition adjustable_history (inp : Inputs) (feed : Feed) (clk : Clock)
  (current_rate : float) : Script unit :=
  let days := days_of (window inp) in
  series <- cached_fetch_history feed (at_chart clk) days ;;
  if negb (empty series)
  then emit (HistoryChart series current_rate)
  else emit NoDataError.

Section Render.

Variable mean : list float -> float.

(** The four KPI cards and the banner for given averages. *)
Definition kpi_widgets (current_rate a7 a30 a365 : float) : list Widget :=
  let s := score current_rate a7 a30 a365 in
  [ MetricNow current_rate;
    Metric 7 a7 (fsub current_rate a7);
    Metric 30 a30 (fsub current_rate a30);
    Metric 365 a365 (fsub current_rate a365);
    match recommendation s with
    | BUY => Success s
    | WAIT_SELL => Warning s
    end ].

(** Section 7: averages and guidance. *)
Definition averages_and_guidance (feed : Feed) (clk : Clock)
  (current_rate : float) : Script unit :=
  hist365 <- cached_fetch_history feed (at_averages clk) 365 ;;
  let a7 := avg7 mean hist365 current_rate in
  let a30 := avg30 mean hist365 current_rate in
  let a365 := avg365 mean hist365 current_rate in
  emit (MetricNow current_rate) ;;;
  emit (Metric 7 a7 (fsub current_rate a7)) ;;;
  emit (Metric 30 a30 (fsub current_rate a30)) ;;;
  emit (Metric 365 a365 (fsub current_rate a365)) ;;;
  let score := score current_rate a7 a30 a365 in
  if flt f0_5 score then emit (Success score) else emit (Warning score).

(** The countdown of section 8 for a given elapsed duration. *)
Definition remaining_of (elapsed : float) : float := max0 (fsub f60 elapsed).

(** Section 8: the auto-refresh timer. *)
Definition auto_refresh_timer (inp : Inputs) (clk : Clock) : Script unit :=
  if auto_refresh inp then
    r <- get ;;
    match loaded_at (session r) with
    | None => raise KeyError
    | Some t0 =>
        let elapsed := total_seconds (at_timer clk - t0) in
        let remaining := remaining_of elapsed in
        let fraction := fdiv (fsub f60 remaining) f60 in
        match int_of_float remaining with
        | None => raise ConversionError
        | Some n =>
            emit (Progress fraction n) ;;;
            if flt remaining f1 then experimental_rerun 1 else ret tt
        end
    end
  else ret tt.

(** Section 9. *)
Definition footer (q : Quote) : Script unit := emit (Footer (timestamp q)).

(** Sections 8 and 9, which end every run that got past the guidance. *)
Definition timer_and_footer (inp : Inputs) (clk : Clock) (q : Quote)
  : Script unit :=
  auto_refresh_timer inp clk ;;; footer q.

Definition render (inp : Inputs) (feed : Feed) (clk : Clock) : Script unit :=
  sidebar inp ;;;
  q <- load_data inp feed clk ;;
  current_rate_and_conversion inp q ;;;
  adjustable_history inp feed clk (rate q) ;;;
  averages_and_guidance feed clk (rate q) ;;;
  timer_and_footer inp clk q.

(** What a run starts from: the session and the caches of the previous
    one, an empty page and nothing sent yet. *)
Definition next_run (r : Run) : Run :=
  {| session := session r; latest_cache := latest_cache r;
     history_cache := history_cache r; page := []; sent := [] |}.

Definition with_button (b : bool) (inp : Inputs) : Inputs :=
  {| usd_amount := usd_amount inp; auto_refresh := auto_refresh inp;
     refresh_now := b; window := window inp |}.

(** A click on "Refresh now": the run the click starts and, when that run
    asks for a rerun, the rerun, in which the button reads False again.
    Returns the last run and every request sent to the feed on the way. *)
Definition click_refresh_now (inp : Inputs) (feed : Feed)
  (clk1 clk2 : Clock) (r : Run) : Run * (Stop + unit) * list Download :=
  let '(r1, o1) := render (with_button true inp) feed clk1 (next_run r) in
  match o1 with
  | inl (Rerun _) =>
      let '(r2, o2) :=
        render (with_button false inp) feed clk2 (next_run r1) in
      (r2, o2, sent r1 ++ sent r2)
  | _ => (r1, o1, sent r1)
  end.

End Render.

(** A run that starts with nothing loaded and nothing cached. *)
Definition cold_start : Run :=
  {| session := {| fx := None; loaded_at := None |};
     latest_cache := None; history_cache := ∅; page := []; sent := [] |}.

(* ===================================================================== *)
(** ** What the caches serve, as functions of their content *)
(* ===================================================================== *)

(** The series a call [fetch_history(days)] returns at time [now], the
    content of the cache after the call, and the requests sent. *)
Definition lookup_history (feed : Feed) (now : Time) (days : Z)
  (cache : gmap Z (Cached Series))
  : Series * gmap Z (Cached Series) * list Download :=
  let miss :=
    let '(ser, ds) := fetch_history feed days in
    (ser, <[days := {| value := ser; stored_at := now |}]> cache, ds) in
  match cache !! days with
  | Some c => if fresh TTL_HISTORY now c then (value c, cache, []) else miss
  | None => miss
  end.

(** The same for [fetch_latest_rate()]; nothing is stored when the body
    raises. *)
Definition lookup_latest (feed : Feed) (now : Time)
  (cache : option (Cached Quote))
  : (Exn + Quote) * option (Cached Quote) * list Download :=
  let miss :=
    match fetch_latest_rate feed now with
    | (inl e, ds) => (inl e, cache, ds)
    | (inr q, ds) => (inr q, Some {| value := q; stored_at := now |}, ds)
    end in
  match cache with
  | Some c => if fresh TTL_LATEST now c then (inr (value c), cache, []) else miss
  | None => miss
  end.

(** The cached quote cannot be served at [now]: there is none, or it has
    reached its time to live. *)
Definition latest_expired (now : Time) (cache : option (Cached Quote))
  : Prop :=
  match cache with
  | Some c => fresh TTL_LATEST now c = false
  | None => True
  end.

(** What section 6 puts on the page for a series. *)
Definition chart_widget (series : Series) (current_rate : float) : Widget :=
  if negb (empty series) then HistoryChart series current_rate
  else NoDataError.

(** The state of a run when it reaches the timer, from the state [r1] in
    which section 4 left it with quote [q]: sections 5 to 7 in one step. *)
Definition after_guidance (mean : list float -> float) (inp : Inputs)
  (feed : Feed) (clk : Clock) (q : Quote) (r1 : Run) : Run :=
  let '(series, cache6, ds6) :=
    lookup_history feed (at_chart clk) (days_of (window inp))
      (history_cache r1) in
  let '(hist365, cache7, ds7) :=
    lookup_history feed (at_averages clk) 365 cache6 in
  {| session := session r1; latest_cache := latest_cache r1;
     history_cache := cache7;
     page := page r1
             ++ [ RateCard (rate q) (timestamp q);
                  ConversionCard (usd_amount inp)
                    (fmul (usd_amount inp) (rate q));
                  chart_widget series (rate q) ]
             ++ kpi_widgets (rate q) (avg7 mean hist365 (rate q))
                  (avg30 mean hist365 (rate q))
                  (avg365 mean hist365 (rate q));
     sent := sent r1 ++ ds6 ++ ds7 |}.

(* ===================================================================== *)
(** ** Sample data *)
(* ===================================================================== *)

(** A history of a single close, 3.80, and a current rate of 3.72. *)
Definition one_close : Series := [(0, decimal 380 100)].
Definition rate_372 : float := decimal 372 100.

(** Rows of a frame: a close given in hundredths, and a missing close. *)
Definition close (i n : Z) : Row := {| index := i; Close := decimal n 100 |}.
Definition gap (i : Z) : Row := {| index := i; Close := S754_nan |}.

(** A feed during trading hours, a feed with daily data only, and a feed
    with no data at all; none of them has any history. *)
Definition feed_open : Feed :=
  {| intraday := [close 1 371; close 2 372; gap 3];
     daily := [close 0 370];
     history := fun _ => [] |}.

Definition feed_closed : Feed :=
  {| intraday := []; daily := [close 0 370]; history := fun _ => [] |}.

Definition feed_silent : Feed :=
  {| intraday := []; daily := []; history := fun _ => [] |}.

(** A feed quoting 3.80, with a 365-day history of two closes and nothing
    for the shorter windows. *)
Definition feed_380 : Feed :=
  {| intraday := [close 5 380];
     daily := [];
     history := fun days =>
                  if days =? 365 then [close 1 380; close 2 381] else [] |}.

Definition inputs (auto : bool) (w : Window) : Inputs :=
  {| usd_amount := of_Z 100; auto_refresh := auto; refresh_now := false;
     window := w |}.

(** A run that starts at [t0] and reaches the timer [d] later. *)
Definition clock_from (t0 d : Time) : Clock :=
  {| at_fetch := t0; at_load := t0; at_chart := t0; at_averages := t0;
     at_timer := t0 + d |}.

(** A session in which the quote 3.72 was loaded and cached at time 0. *)
Definition quote_372 : Quote := {| rate := rate_372; timestamp := 0 |}.

Definition warm_run : Run :=
  {| session := {| fx := Some quote_372; loaded_at := Some 0 |};
     latest_cache := Some {| value := quote_372; stored_at := 0 |};
     history_cache := ∅; page := []; sent := [] |}.

(** The frame [fetch_latest_rate] reads the close from: the daily one when
    the intraday one is empty. *)
Definition consulted_frame (feed : Feed) : DataFrame :=
  if empty (intraday feed) then daily feed else intraday feed.

(** The two keys of the session state are present together or not at
    all. *)
Definition session_paired (s : Session) : Prop :=
  fx s = None <-> loaded_at s = None.

(** A feed whose intraday frame has rows but no close, while the daily
    frame has one. *)
Definition feed_gaps : Feed :=
  {| intraday := [gap 1; gap 2]; daily := [close 0 370];
     history := fun _ => [] |}.

(** A feed with a history of three rows, the middle one without a close. *)
Definition feed_holiday : Feed :=
  {| intraday := [close 5 380]; daily := [];
     history := fun _ => [close 1 380; gap 2; close 3 381] |}.

(** A run state with more widgets on the page. *)
Definition with_widgets (ws : list Widget) (r : Run) : Run :=
  {| session := session r; latest_cache := latest_cache r;
     history_cache := history_cache r; page := page r ++ ws;
     sent := sent r |}.

(** Section 4 reloads the quote: auto-refresh is on or no quote is in the
    session. *)
Definition reloads (inp : Inputs) (r : Run) : bool :=
  auto_refresh inp || negb (has_key_fx (session r)).

(** The state section 4 leaves when it loaded [q] through the cache, which
    became [cache'] after sending [ds]. *)
Definition reloaded (clk : Clock) (q : Quote)
  (cache' : option (Cached Quote)) (ds : list Download) (r : Run) : Run :=
  {| session := {| fx := Some q; loaded_at := Some (at_load clk) |};
     latest_cache := cache'; history_cache := history_cache r;
     page := page r; sent := sent r ++ ds |}.

(** How section 4 can deliver quote [q], leaving state [r1]. *)
Definition delivers (inp : Inputs) (feed : Feed) (clk : Clock) (r r1 : Run)
  (q : Quote) : Prop :=
  (reloads inp r = true
   /\ exists cache' ds,
        lookup_latest feed (at_fetch clk) (latest_cache r)
        = (inr q, cache', ds)
        /\ r1 = reloaded clk q cache' ds r)
  \/ (auto_refresh inp = false /\ fx (session r) = Some q /\ r1 = r).

(** How sections 8 and 9 can end a run that reached them in state [r7]. *)
Definition timer_ending (inp : Inputs) (clk : Clock) (q : Quote)
  (r7 r' : Run) (o : Stop + unit) : Prop :=
  (auto_refresh inp = false
   /\ r' = with_widgets [Footer (timestamp q)] r7 /\ o = inr tt)
  \/ (auto_refresh inp = true /\ loaded_at (session r7) = None
      /\ r' = r7 /\ o = inl (Raised KeyError))
  \/ (auto_refresh inp = true
      /\ exists t0,
           loaded_at (session r7) = Some t0
           /\ let remaining :=
                remaining_of (total_seconds (at_timer clk - t0)) in
              (int_of_float remaining = None
               /\ r' = r7 /\ o = inl (Raised ConversionError))
              \/ (exists n,
                    int_of_float remaining = Some n
                    /\ let bar :=
                         Progress (fdiv (fsub f60 remaining) f60) n in
                       (flt remaining f1 = true
                        /\ r' = with_widgets [bar] r7
                        /\ o = inl (Rerun 1))
                       \/ (flt remaining f1 = false
                           /\ r' = with_widgets
                                     [bar; Footer (timestamp q)] r7
                           /\ o = inr tt))).

(** How a whole run can end. *)
Definition run_ending (mean : list float -> float) (inp : Inputs)
  (feed : Feed) (clk : Clock) (r r' : Run) (o : Stop + unit) : Prop :=
  (refresh_now inp = true /\ r' = r /\ o = inl (Rerun 0))
  \/ (refresh_now inp = false /\ reloads inp r = true
      /\ exists e cache' ds,
           lookup_latest feed (at_fetch clk) (latest_cache r)
           = (inl e, cache', ds)
           /\ r' = {| session := session r; latest_cache := cache';
                      history_cache := history_cache r; page := page r;
                      sent := sent r ++ ds |}
           /\ o = inl (Raised e))
  \/ (refresh_now inp = false
      /\ exists q r1,
           delivers inp feed clk r r1 q
           /\ timer_ending inp clk q
                (after_guidance mean inp feed clk q r1) r' o).

(* ===================================================================== *)
(** * Properties *)
(* ===================================================================== *)

(** ** Facts about floats *)

(** The literals are the correctly rounded decimals they are written as. *)
Lemma literals_decimal :
  f0_20 = decimal 20 100 /\ f0_30 = decimal 30 100 /\
  f0_50 = decimal 50 100 /\ f0_5 = decimal 5 10 /\
  f1 = of_Z 1 /\ f60 = of_Z 60 /\ f0_0 = of_Z 0.
Proof. repeat split; vm_compute; reflexivity. Qed.

Lemma literals_nearest :
  nearest_to 2 10 f0_20 /\ nearest_to 3 10 f0_30 /\ nearest_to 5 10 f0_50.
Proof. repeat split; vm_compute; congruence. Qed.

(** No float is strictly below itself, NaN included. *)
Lemma flt_irrefl (x : float) : flt x x = false.
Proof.
  unfold flt, SFltb.
  destruct x as [s | s | | s m e]; simpl; try destruct s; try reflexivity;
    rewrite Z.compare_refl;
    change (Pos.compare_cont Eq m m) with (Pos.compare m m);
    rewrite Pos.compare_refl; reflexivity.
Qed.

Lemma lex_compare_Lt e1 m1 e2 m2 :
  lex_compare e1 m1 e2 m2 = Lt <-> (e1 < e2 \/ (e1 = e2 /\ (m1 < m2)%positive)).
Proof.
  unfold lex_compare.
  destruct (Z.compare_spec e1 e2); destruct (Pos.compare_spec m1 m2);
    split; intros; try discriminate; try reflexivity; try lia.
Qed.

Lemma lex_compare_Gt e1 m1 e2 m2 :
  lex_compare e1 m1 e2 m2 = Gt <-> (e2 < e1 \/ (e1 = e2 /\ (m2 < m1)%positive)).
Proof.
  unfold lex_compare.
  destruct (Z.compare_spec e1 e2); destruct (Pos.compare_spec m1 m2);
    split; intros; try discriminate; try reflexivity; try lia.
Qed.

Lemma lex_compare_Eq e1 m1 e2 m2 :
  lex_compare e1 m1 e2 m2 = Eq <-> (e1 = e2 /\ m1 = m2).
Proof.
  unfold lex_compare.
  destruct (Z.compare_spec e1 e2); destruct (Pos.compare_spec m1 m2);
    split; intros; try discriminate; try reflexivity; try lia.
Qed.

(** [x <= y] and [y < z] give [x < z]: what makes every comparison of the
    score monotone in the current rate. *)
Lemma fle_flt_trans (x y z : float) :
  fle x y = true -> flt y z = true -> flt x z = true.
Proof.
  unfold fle, flt, SFleb, SFltb.
  destruct x as [sx | sx | | sx mx ex], y as [sy | sy | | sy my ey],
    z as [sz | sz | | sz mz ez]; simpl;
    try destruct sx; try destruct sy; try destruct sz; simpl;
    try discriminate; try reflexivity;
    change (Pos.compare_cont Eq) with Pos.compare;
    repeat match goal with
    | |- context [match Z.compare ?a ?b with Lt => Lt | Eq => Pos.compare ?m ?n | Gt => Gt end] =>
        change (match Z.compare a b with Lt => Lt | Eq => Pos.compare m n | Gt => Gt end)
          with (lex_compare a m b n)
    | |- context [match Z.compare ?a ?b with Lt => Gt | Eq => CompOpp (Pos.compare ?m ?n) | Gt => Lt end] =>
        replace (match Z.compare a b with Lt => Gt | Eq => CompOpp (Pos.compare m n) | Gt => Lt end)
          with (CompOpp (lex_compare a m b n))
          by (unfold lex_compare; destruct (Z.compare a b); reflexivity)
    end.
  - destruct (lex_compare ex mx ey my) eqn:H1; try discriminate;
    destruct (lex_compare ey my ez mz) eqn:H2; try discriminate;
    destruct (lex_compare ex mx ez mz) eqn:H3; try reflexivity; simpl in *;
    try discriminate; intros _ _; exfalso;
    rewrite ?lex_compare_Lt, ?lex_compare_Gt, ?lex_compare_Eq in *; lia.
  - destruct (lex_compare ex mx ey my) eqn:H1; try discriminate;
    destruct (lex_compare ey my ez mz) eqn:H2; try discriminate;
    destruct (lex_compare ex mx ez mz) eqn:H3; try reflexivity; simpl in *;
    try discriminate; intros _ _; exfalso;
    rewrite ?lex_compare_Lt, ?lex_compare_Gt, ?lex_compare_Eq in *; lia.
Qed.

Lemma SFcompare_pos_finite m1 e1 m2 e2 :
  SFcompare (S754_finite false m1 e1) (S754_finite false m2 e2)
  = Some (lex_compare e1 m1 e2 m2).
Proof. reflexivity. Qed.

(** Equality with the literal [0.5] pins the float down. *)
Lemma feq_half (s : float) : feq s f0_5 = true -> s = f0_5.
Proof.
  unfold feq, SFeqb, f0_5.
  destruct s as [sg | sg | | sg m e]; try destruct sg;
    try (cbv beta iota delta [SFcompare]; discriminate).
  rewrite SFcompare_pos_finite.
  destruct (lex_compare e m (-53) 4503599627370496) eqn:H; try discriminate.
  apply lex_compare_Eq in H. destruct H as [-> ->]. reflexivity.
Qed.

(** ** Facts about slices *)

Lemma last_entries_skipn {A : Type} (k : nat) (l : list A) :
  last_entries k l = skipn (length l - k) l.
Proof.
  unfold last_entries. rewrite List.firstn_rev, List.rev_involutive.
  reflexivity.
Qed.

(** A slice [l[-k:]] with [k > 0] is the last [k] entries of [l], all of
    [l] when it has fewer. *)
Lemma slice_from_last_entries {A : Type} (k : nat) (l : list A) :
  (0 < k)%nat -> slice_from (- Z.of_nat k) l = last_entries k l.
Proof.
  intros Hk. rewrite last_entries_skipn.
  unfold slice_from, slice_start.
  destruct (Z.ltb_spec (- Z.of_nat k) 0) as [_ | H]; [ | lia ].
  f_equal. lia.
Qed.

(** The last [k] entries of a sequence that has at least [k]: they are [k]
    and they end the sequence. *)
Lemma last_entries_exactly {A : Type} (k : nat) (l : list A) :
  (k <= length l)%nat ->
  length (last_entries k l) = k /\
  exists older, l = older ++ last_entries k l.
Proof.
  intros Hk. rewrite last_entries_skipn. split.
  - rewrite List.length_skipn. lia.
  - exists (firstn (length l - k) l). symmetry. apply List.firstn_skipn.
Qed.

Lemma last_entries_all {A : Type} (k : nat) (l : list A) :
  (length l <= k)%nat -> last_entries k l = l.
Proof.
  intros Hk. rewrite last_entries_skipn.
  replace (length l - k)%nat with 0%nat by lia. reflexivity.
Qed.

(* ===================================================================== *)
(** ** The guidance score *)
(* ===================================================================== *)

Ltac by_cases_on_comparisons c a7 a30 a365 :=
  destruct (flt c a365), (flt c a30), (flt c a7);
  vm_compute; try reflexivity; try tauto.

(** C2. For every current rate and every triple of averages, the score is
    the float sum of 0.30 when [current < avg365], 0.50 when
    [current < avg30] and 0.20 when [current < avg7] (a condition that
    fails contributes 0.0); that sum is the binary64 value of the exact
    decimal total; and for avg7 = 3.70, avg30 = 3.75, avg365 = 3.80,
    current = 3.72 it is 0.80. *)
Theorem score_is_weighted_sum (current a7 a30 a365 : float) :
  score current a7 a30 a365
  = fadd (fadd (fadd f0_0 (if flt current a365 then f0_30 else f0_0))
               (if flt current a30 then f0_50 else f0_0))
         (if flt current a7 then f0_20 else f0_0)
  /\ score current a7 a30 a365
     = decimal (hundredths current a7 a30 a365) 100
  /\ score (decimal 372 100) (decimal 370 100) (decimal 375 100)
           (decimal 380 100) = decimal 80 100.
Proof.
  unfold score, hundredths. split; [ | split ].
  - by_cases_on_comparisons current a7 a30 a365.
  - by_cases_on_comparisons current a7 a30 a365.
  - vm_compute. reflexivity.
Qed.

(** C3. For every score value the recommendation is BUY exactly when the
    score is strictly greater than 0.50 and WAIT/SELL otherwise; a score
    equal to 0.50 yields WAIT/SELL, and that is the score and the
    recommendation when the current rate is below avg30 only. *)
Theorem recommendation_strict_threshold (s : float) :
  (recommendation s = BUY <-> flt f0_50 s = true)
  /\ (recommendation s = WAIT_SELL <-> flt f0_50 s = false)
  /\ (feq s f0_50 = true -> recommendation s = WAIT_SELL)
  /\ (forall current a7 a30 a365 : float,
        flt current a30 = true -> flt current a365 = false ->
        flt current a7 = false ->
        score current a7 a30 a365 = f0_50
        /\ recommendation (score current a7 a30 a365) = WAIT_SELL).
Proof.
  unfold recommendation. change f0_50 with f0_5.
  split; [ | split; [ | split ] ].
  - destruct (flt f0_5 s); split; intros H; try reflexivity; discriminate.
  - destruct (flt f0_5 s); split; intros H; try reflexivity; discriminate.
  - intros H. apply feq_half in H. subst s. vm_compute. reflexivity.
  - intros current a7 a30 a365 H30 H365 H7.
    unfold score. rewrite H30, H365, H7. vm_compute. split; reflexivity.
Qed.

Lemma recommendation_strict_threshold_witness :
  flt (decimal 374 100) (decimal 375 100) = true
  /\ score (decimal 374 100) (decimal 370 100) (decimal 375 100)
       (decimal 370 100) = f0_50
  /\ recommendation (score (decimal 374 100) (decimal 370 100)
       (decimal 375 100) (decimal 370 100)) = WAIT_SELL.
Proof.
  split; [ vm_compute; reflexivity | ].
  exact (proj2 (proj2 (proj2 (recommendation_strict_threshold f0_50)))
           (decimal 374 100) (decimal 370 100) (decimal 375 100)
           (decimal 370 100) eq_refl eq_refl eq_refl).
Defined.

(** C6. For all inputs the score lies between 0.0 and 1.0 and is one of
    0.00, 0.20, 0.30, 0.50, 0.70, 0.80, 1.00; the subsets {avg30} and
    {avg365, avg7} of conditions both give exactly 0.50. *)
Theorem score_values (current a7 a30 a365 : float) :
  fle f0_0 (score current a7 a30 a365) = true
  /\ fle (score current a7 a30 a365) f1 = true
  /\ In (score current a7 a30 a365)
       [decimal 0 100; decimal 20 100; decimal 30 100; decimal 50 100;
        decimal 70 100; decimal 80 100; decimal 100 100]
  /\ (flt current a365 = false -> flt current a30 = true ->
      flt current a7 = false -> score current a7 a30 a365 = decimal 50 100)
  /\ (flt current a365 = true -> flt current a30 = false ->
      flt current a7 = true -> score current a7 a30 a365 = decimal 50 100).
Proof.
  unfold score. split; [ | split; [ | split; [ | split ] ] ].
  - by_cases_on_comparisons current a7 a30 a365.
  - by_cases_on_comparisons current a7 a30 a365.
  - by_cases_on_comparisons current a7 a30 a365.
  - intros -> -> ->. vm_compute. reflexivity.
  - intros -> -> ->. vm_compute. reflexivity.
Qed.

Lemma score_values_witness :
  score (decimal 374 100) (decimal 370 100) (decimal 375 100)
    (decimal 370 100) = decimal 50 100
  /\ score (decimal 374 100) (decimal 375 100) (decimal 370 100)
       (decimal 375 100) = decimal 50 100.
Proof.
  split.
  - exact (proj1 (proj2 (proj2 (proj2
      (score_values (decimal 374 100) (decimal 370 100)
         (decimal 375 100) (decimal 370 100)))))
      eq_refl eq_refl eq_refl).
  - exact (proj2 (proj2 (proj2 (proj2
      (score_values (decimal 374 100) (decimal 375 100)
         (decimal 370 100) (decimal 375 100)))))
      eq_refl eq_refl eq_refl).
Defined.

(** A condition that holds at a rate holds at every lower rate. *)
Lemma below_average_downward (c1 c2 a : float) :
  fle c1 c2 = true -> flt c2 a = true -> flt c1 a = true.
Proof. apply fle_flt_trans. Qed.

(** C7. For fixed averages the score does not decrease when the current
    rate decreases: [c1 <= c2] gives [score c1 >= score c2]. *)
Theorem score_monotone (c1 c2 a7 a30 a365 : float) :
  fle c1 c2 = true ->
  fle (score c2 a7 a30 a365) (score c1 a7 a30 a365) = true.
Proof.
  intros Hle.
  pose proof (below_average_downward c1 c2 a365 Hle) as H365.
  pose proof (below_average_downward c1 c2 a30 Hle) as H30.
  pose proof (below_average_downward c1 c2 a7 Hle) as H7.
  unfold score.
  destruct (flt c2 a365);
    [ rewrite (H365 eq_refl) | destruct (flt c1 a365) ];
    (destruct (flt c2 a30);
       [ rewrite (H30 eq_refl) | destruct (flt c1 a30) ]);
    (destruct (flt c2 a7);
       [ rewrite (H7 eq_refl) | destruct (flt c1 a7) ]);
    vm_compute; reflexivity.
Qed.

Lemma score_monotone_witness :
  fle (decimal 372 100) (decimal 378 100) = true
  /\ fle (score (decimal 378 100) (decimal 370 100) (decimal 375 100)
            (decimal 380 100))
         (score (decimal 372 100) (decimal 370 100) (decimal 375 100)
            (decimal 380 100)) = true.
Proof.
  split; [ vm_compute; reflexivity | ].
  apply (score_monotone (decimal 372 100) (decimal 378 100)).
  vm_compute. reflexivity.
Defined.

(* ===================================================================== *)
(** ** The averages *)
(* ===================================================================== *)

Lemma len_nonneg {A : Type} (l : list A) : 0 <= len l.
Proof. unfold len. lia. Qed.

(** The 7- and 30-entry averages of the script are the rolling means of
    the specification with the current rate as fallback. *)
Lemma avg7_average_spec mean series current :
  avg7 mean series current = average_spec mean series 7 current.
Proof.
  unfold avg7, average_spec, rollingMean_spec.
  change (Z.of_nat 7) with 7.
  destruct (7 <=? len series); [ | reflexivity ].
  change (-7) with (- Z.of_nat 7).
  rewrite slice_from_last_entries by lia. reflexivity.
Qed.

Lemma avg30_average_spec mean series current :
  avg30 mean series current = average_spec mean series 30 current.
Proof.
  unfold avg30, average_spec, rollingMean_spec.
  change (Z.of_nat 30) with 30.
  destruct (30 <=? len series); [ | reflexivity ].
  change (-30) with (- Z.of_nat 30).
  rewrite slice_from_last_entries by lia. reflexivity.
Qed.

(** C1, as the code has it. For every series: with at least 7 (30)
    entries the 7-day (30-day) average is the mean of exactly the last 7
    (30) entries, and with fewer it is the current rate; the 365-day
    average is the mean of all the entries of the series as soon as there
    is one - which are its last 365 entries when it has at most 365 - and
    the current rate only when the series is empty. *)
Theorem averages_by_window (mean : list float -> float) (series : Series)
  (current : float) :
  (7 <= len series ->
     avg7 mean series current = mean (values (last_entries 7 series)))
  /\ (len series < 7 -> avg7 mean series current = current)
  /\ (30 <= len series ->
        avg30 mean series current = mean (values (last_entries 30 series)))
  /\ (len series < 30 -> avg30 mean series current = current)
  /\ (1 <= len series -> avg365 mean series current = mean (values series))
  /\ (1 <= len series <= 365 ->
        avg365 mean series current
        = mean (values (last_entries 365 series)))
  /\ (len series = 0 -> avg365 mean series current = current).
Proof.
  split; [ | split; [ | split; [ | split; [ | split; [ | split ] ] ] ] ].
  - intros H. rewrite avg7_average_spec.
    unfold average_spec, rollingMean_spec. change (Z.of_nat 7) with 7.
    destruct (Z.leb_spec 7 (len series)); [ reflexivity | lia ].
  - intros H. unfold avg7.
    destruct (Z.leb_spec 7 (len series)); [ lia | reflexivity ].
  - intros H. rewrite avg30_average_spec.
    unfold average_spec, rollingMean_spec. change (Z.of_nat 30) with 30.
    destruct (Z.leb_spec 30 (len series)); [ reflexivity | lia ].
  - intros H. unfold avg30.
    destruct (Z.leb_spec 30 (len series)); [ lia | reflexivity ].
  - intros H. unfold avg365.
    destruct (Z.leb_spec 1 (len series)); [ reflexivity | lia ].
  - intros H. unfold avg365.
    destruct (Z.leb_spec 1 (len series)); [ | lia ].
    rewrite last_entries_all; [ reflexivity | unfold len in H; lia ].
  - intros H. unfold avg365.
    destruct (Z.leb_spec 1 (len series)); [ lia | reflexivity ].
Qed.

Lemma averages_by_window_witness :
  avg365 mean_ltr one_close rate_372 = mean_ltr (values one_close)
  /\ avg7 mean_ltr one_close rate_372 = rate_372.
Proof.
  destruct (averages_by_window mean_ltr one_close rate_372)
    as (_ & H7 & _ & _ & H365 & _).
  split; [ apply H365 | apply H7 ]; unfold len, one_close; simpl; lia.
Defined.

(** C1 as the specification states it fails for the 365-day window: a
    series of one close has fewer than 365 entries, so its rolling mean is
    undefined and the current rate 3.72 would be substituted, but the
    script shows the mean of the series, 3.80. *)
Lemma avg365_short_history_counterexample :
  len one_close < 365
  /\ rollingMean_spec mean_ltr one_close 365 = None
  /\ average_spec mean_ltr one_close 365 rate_372 = rate_372
  /\ avg365 mean_ltr one_close rate_372 = decimal 380 100
  /\ avg365 mean_ltr one_close rate_372
     <> average_spec mean_ltr one_close 365 rate_372.
Proof.
  split; [ vm_compute; reflexivity | ].
  split; [ vm_compute; reflexivity | ].
  split; [ vm_compute; reflexivity | ].
  split; [ vm_compute; reflexivity | ].
  intros H.
  apply (f_equal (fun x => feq x rate_372)) in H.
  vm_compute in H. discriminate H.
Qed.

(** C10. With an empty 365-day history all three averages are the current
    rate, the three strict comparisons are false, the score is exactly
    0.0 and the recommendation is WAIT/SELL, whatever the current rate and
    whatever mean pandas computes. *)
Theorem empty_history_guidance (mean : list float -> float)
  (current : float) :
  avg7 mean [] current = current
  /\ avg30 mean [] current = current
  /\ avg365 mean [] current = current
  /\ flt current (avg7 mean [] current) = false
  /\ flt current (avg30 mean [] current) = false
  /\ flt current (avg365 mean [] current) = false
  /\ g_score (guidance mean [] current) = f0_0
  /\ g_recommendation (guidance mean [] current) = WAIT_SELL
  /\ kpi_widgets current (avg7 mean [] current) (avg30 mean [] current)
       (avg365 mean [] current)
     = [ MetricNow current;
         Metric 7 current (fsub current current);
         Metric 30 current (fsub current current);
         Metric 365 current (fsub current current);
         Warning f0_0 ].
Proof.
  assert (E7 : avg7 mean [] current = current) by reflexivity.
  assert (E30 : avg30 mean [] current = current) by reflexivity.
  assert (E365 : avg365 mean [] current = current) by reflexivity.
  unfold guidance, kpi_widgets. simpl g_score. simpl g_recommendation.
  rewrite E7, E30, E365.
  unfold score. rewrite (flt_irrefl current).
  repeat (split; [ reflexivity | ]). reflexivity.
Qed.

(* ===================================================================== *)
(** ** The latest quote *)
(* ===================================================================== *)

(** [s.iloc[-1]] is the last value of a series that has one. *)
Lemma iloc_last (older : Series) (i : Z) (c : float) :
  iloc (-1) (older ++ [(i, c)]) = Some c.
Proof.
  unfold iloc, item, values.
  rewrite List.map_app, List.length_app, List.length_map. simpl.
  replace (-1 + Z.of_nat (length older + 1)) with (Z.of_nat (length older))
    by lia.
  destruct (Z.leb_spec 0 (Z.of_nat (length older))); [ | lia ].
  destruct (Z.ltb_spec (Z.of_nat (length older))
              (Z.of_nat (length older + 1))); [ | lia ].
  simpl. rewrite Nat2Z.id.
  rewrite List.nth_error_app2 by (rewrite List.length_map; lia).
  rewrite List.length_map, Nat.sub_diag. reflexivity.
Qed.

Lemma iloc_empty : iloc (-1) [] = None.
Proof. reflexivity. Qed.

(** C8. The latest-quote fetch returns the most recent intraday close; when
    the intraday frame is empty it falls back to the most recent daily
    close, after a second request; and it raises, returning no quote, when
    no close exists at all. *)
Theorem fetch_latest_rate_fallback (feed : Feed) (now : Time) :
  (forall older i c,
     intraday feed <> [] ->
     dropna (Close_column (intraday feed)) = older ++ [(i, c)] ->
     fetch_latest_rate feed now
     = (inr {| rate := c; timestamp := strftime_minute now |}, [Intraday]))
  /\ (forall older i c,
        intraday feed = [] ->
        dropna (Close_column (daily feed)) = older ++ [(i, c)] ->
        fetch_latest_rate feed now
        = (inr {| rate := c; timestamp := strftime_minute now |},
           [Intraday; Daily]))
  /\ (dropna (Close_column (intraday feed)) = [] ->
      dropna (Close_column (daily feed)) = [] ->
      exists ds, fetch_latest_rate feed now = (inl IndexError, ds)).
Proof.
  unfold fetch_latest_rate. split; [ | split ].
  - intros older i c Hne Hcol.
    destruct (intraday feed) as [ | row rows ] eqn:E; [ congruence | ].
    simpl empty. cbv iota. rewrite Hcol, iloc_last. reflexivity.
  - intros older i c He Hcol. rewrite He. simpl empty. cbv iota.
    rewrite Hcol, iloc_last. reflexivity.
  - intros Hi Hd.
    destruct (intraday feed) as [ | row rows ] eqn:E; simpl empty; cbv iota.
    + rewrite Hd, iloc_empty. eexists. reflexivity.
    + rewrite Hi, iloc_empty. eexists. reflexivity.
Qed.

(* ===================================================================== *)
(** ** Running the sections of the script *)
(* ===================================================================== *)

Lemma run_eta (r : Run) :
  {| session := session r; latest_cache := latest_cache r;
     history_cache := history_cache r; page := page r; sent := sent r |} = r.
Proof. destruct r; reflexivity. Qed.

(** A call of the cached history helper never stops the run; it touches
    the history cache and the log of requests only. *)
Lemma cached_fetch_history_run (feed : Feed) (now : Time) (days : Z)
  (r : Run) :
  cached_fetch_history feed now days r
  = let '(ser, cache', ds) :=
      lookup_history feed now days (history_cache r) in
    ({| session := session r; latest_cache := latest_cache r;
        history_cache := cache'; page := page r; sent := sent r ++ ds |},
     inr ser).
Proof.
  unfold cached_fetch_history, lookup_history, bind, get, fetch_history.
  destruct (history_cache r !! days) as [c | ];
    [ destruct (fresh TTL_HISTORY now c) | ];
    cbn; rewrite ?List.app_nil_r, ?run_eta; reflexivity.
Qed.

(** A call of the cached quote helper: it stops the run exactly when its
    body ran and raised. *)
Lemma cached_fetch_latest_rate_run (feed : Feed) (now : Time) (r : Run) :
  cached_fetch_latest_rate feed now r
  = let '(res, cache', ds) := lookup_latest feed now (latest_cache r) in
    ({| session := session r; latest_cache := cache';
        history_cache := history_cache r; page := page r;
        sent := sent r ++ ds |},
     match res with inl e => inl (Raised e) | inr q => inr q end).
Proof.
  unfold cached_fetch_latest_rate, lookup_latest, bind, get.
  destruct (latest_cache r) as [c | ] eqn:Ec;
    [ destruct (fresh TTL_LATEST now c) | ];
    try destruct (fetch_latest_rate feed now) as [[e | q] ds];
    cbn; rewrite ?List.app_nil_r, <- ?Ec, ?run_eta; reflexivity.
Qed.

(** Section 4 when auto-refresh is on: the quote is requested through the
    cache and the load time is stamped. *)
Lemma load_data_auto (inp : Inputs) (feed : Feed) (clk : Clock) (r : Run) :
  auto_refresh inp = true ->
  load_data inp feed clk r
  = let '(res, cache', ds) :=
      lookup_latest feed (at_fetch clk) (latest_cache r) in
    match res with
    | inl e =>
        ({| session := session r; latest_cache := cache';
            history_cache := history_cache r; page := page r;
            sent := sent r ++ ds |}, inl (Raised e))
    | inr q =>
        ({| session := {| fx := Some q; loaded_at := Some (at_load clk) |};
            latest_cache := cache'; history_cache := history_cache r;
            page := page r; sent := sent r ++ ds |}, inr q)
    end.
Proof.
  intros Hauto. unfold load_data. rewrite Hauto.
  unfold bind at 1. unfold get at 1. cbn [orb].
  unfold bind at 1. unfold bind at 1.
  rewrite cached_fetch_latest_rate_run.
  destruct (lookup_latest feed (at_fetch clk) (latest_cache r))
    as [[[e | q] cache'] ds]; reflexivity.
Qed.

(** Section 4 when auto-refresh is off and a quote is loaded: nothing is
    requested and nothing changes. *)
Lemma load_data_loaded (inp : Inputs) (feed : Feed) (clk : Clock) (r : Run)
  (q : Quote) :
  auto_refresh inp = false -> fx (session r) = Some q ->
  load_data inp feed clk r = (r, inr q).
Proof.
  intros Hauto Hfx. unfold load_data, has_key_fx. rewrite Hauto.
  unfold bind, get, ret. rewrite Hfx. cbn. rewrite Hfx. reflexivity.
Qed.

Lemma bind_run {A B : Type} (m : Script A) (k : A -> Script B)
  (r r' : Run) (a : A) :
  m r = (r', inr a) -> bind m k r = k a r'.
Proof. intros H. unfold bind. rewrite H. reflexivity. Qed.

Lemma bind_stop {A B : Type} (m : Script A) (k : A -> Script B)
  (r r' : Run) (s : Stop) :
  m r = (r', inl s) -> bind m k r = (r', inl s).
Proof. intros H. unfold bind. rewrite H. reflexivity. Qed.

Lemma current_rate_and_conversion_run (inp : Inputs) (q : Quote) (r : Run) :
  current_rate_and_conversion inp q r
  = ({| session := session r; latest_cache := latest_cache r;
        history_cache := history_cache r;
        page := page r
                ++ [ RateCard (rate q) (timestamp q);
                     ConversionCard (usd_amount inp)
                       (fmul (usd_amount inp) (rate q)) ];
        sent := sent r |}, inr tt).
Proof.
  unfold current_rate_and_conversion, bind, emit. cbn.
  rewrite <- List.app_assoc. reflexivity.
Qed.

Lemma adjustable_history_run (inp : Inputs) (feed : Feed) (clk : Clock)
  (c : float) (r : Run) :
  adjustable_history inp feed clk c r
  = let '(series, cache', ds) :=
      lookup_history feed (at_chart clk) (days_of (window inp))
        (history_cache r) in
    ({| session := session r; latest_cache := latest_cache r;
        history_cache := cache';
        page := page r ++ [chart_widget series c];
        sent := sent r ++ ds |}, inr tt).
Proof.
  unfold adjustable_history, bind. rewrite cached_fetch_history_run.
  destruct (lookup_history feed (at_chart clk) (days_of (window inp))
              (history_cache r)) as [[series cache'] ds].
  unfold chart_widget. destruct (negb (empty series)); reflexivity.
Qed.

Lemma averages_and_guidance_run (mean : list float -> float) (feed : Feed)
  (clk : Clock) (c : float) (r : Run) :
  averages_and_guidance mean feed clk c r
  = let '(hist365, cache', ds) :=
      lookup_history feed (at_averages clk) 365 (history_cache r) in
    ({| session := session r; latest_cache := latest_cache r;
        history_cache := cache';
        page := page r
                ++ kpi_widgets c (avg7 mean hist365 c)
                     (avg30 mean hist365 c) (avg365 mean hist365 c);
        sent := sent r ++ ds |}, inr tt).
Proof.
  unfold averages_and_guidance. unfold bind at 1.
  rewrite cached_fetch_history_run.
  destruct (lookup_history feed (at_averages clk) 365 (history_cache r))
    as [[hist365 cache'] ds].
  unfold kpi_widgets, recommendation, bind, emit. cbn.
  destruct (flt f0_5
              (score c (avg7 mean hist365 c) (avg30 mean hist365 c)
                 (avg365 mean hist365 c)));
    cbn; repeat rewrite <- List.app_assoc; reflexivity.
Qed.

(** A run in which the button is not pressed and section 4 delivers a
    quote goes through sections 5 to 7 without stopping and ends with the
    timer and the footer. *)
Lemma render_after_load (mean : list float -> float) (inp : Inputs)
  (feed : Feed) (clk : Clock) (r r1 : Run) (q : Quote) :
  refresh_now inp = false ->
  load_data inp feed clk r = (r1, inr q) ->
  render mean inp feed clk r
  = timer_and_footer inp clk q (after_guidance mean inp feed clk q r1).
Proof.
  intros Hbtn Hload. unfold render, sidebar. rewrite Hbtn.
  rewrite (bind_run (ret tt) _ r r tt eq_refl).
  rewrite (bind_run _ _ r r1 q Hload).
  unfold after_guidance.
  erewrite bind_run by apply current_rate_and_conversion_run.
  unfold bind at 1. rewrite adjustable_history_run. cbn [history_cache].
  destruct (lookup_history feed (at_chart clk) (days_of (window inp))
              (history_cache r1)) as [[series cache6] ds6].
  unfold bind at 1. rewrite averages_and_guidance_run. cbn [history_cache].
  destruct (lookup_history feed (at_averages clk) 365 cache6)
    as [[hist365 cache7] ds7].
  cbn [session latest_cache page sent].
  repeat rewrite <- List.app_assoc. reflexivity.
Qed.

Lemma render_load_stops (mean : list float -> float) (inp : Inputs)
  (feed : Feed) (clk : Clock) (r r1 : Run) (s : Stop) :
  refresh_now inp = false ->
  load_data inp feed clk r = (r1, inl s) ->
  render mean inp feed clk r = (r1, inl s).
Proof.
  intros Hbtn Hload. unfold render, sidebar. rewrite Hbtn.
  rewrite (bind_run (ret tt) _ r r tt eq_refl).
  apply bind_stop. exact Hload.
Qed.

(** With the button pressed the run stops at once: nothing is requested,
    nothing is drawn, nothing changes. *)
Lemma render_button_pressed (mean : list float -> float) (inp : Inputs)
  (feed : Feed) (clk : Clock) (r : Run) :
  refresh_now inp = true ->
  render mean inp feed clk r = (r, inl (Rerun 0)).
Proof.
  intros Hbtn. unfold render, sidebar. rewrite Hbtn. reflexivity.
Qed.

(* ===================================================================== *)
(** ** The timer *)
(* ===================================================================== *)

Lemma timer_and_footer_off (inp : Inputs) (clk : Clock) (q : Quote)
  (r : Run) :
  auto_refresh inp = false ->
  timer_and_footer inp clk q r
  = ({| session := session r; latest_cache := latest_cache r;
        history_cache := history_cache r;
        page := page r ++ [Footer (timestamp q)]; sent := sent r |}, inr tt).
Proof.
  intros Hauto. unfold timer_and_footer, auto_refresh_timer.
  rewrite Hauto. reflexivity.
Qed.

Lemma timer_and_footer_on (inp : Inputs) (clk : Clock) (q : Quote)
  (r : Run) (t0 : Time) :
  auto_refresh inp = true ->
  loaded_at (session r) = Some t0 ->
  timer_and_footer inp clk q r
  = let remaining := remaining_of (total_seconds (at_timer clk - t0)) in
    match int_of_float remaining with
    | None => (r, inl (Raised ConversionError))
    | Some n =>
        let shown := Progress (fdiv (fsub f60 remaining) f60) n in
        if flt remaining f1
        then ({| session := session r; latest_cache := latest_cache r;
                 history_cache := history_cache r;
                 page := page r ++ [shown]; sent := sent r |},
              inl (Rerun 1))
        else ({| session := session r; latest_cache := latest_cache r;
                 history_cache := history_cache r;
                 page := page r ++ [shown; Footer (timestamp q)];
                 sent := sent r |}, inr tt)
    end.
Proof.
  intros Hauto Hload. unfold timer_and_footer, auto_refresh_timer.
  rewrite Hauto. unfold bind at 1. unfold bind at 1. unfold get at 1.
  cbv beta iota. rewrite Hload. cbv zeta.
  destruct (int_of_float (remaining_of (total_seconds (at_timer clk - t0))))
    as [n | ]; [ | reflexivity ].
  unfold bind at 1. unfold emit at 1. cbv beta iota.
  destruct (flt (remaining_of (total_seconds (at_timer clk - t0))) f1).
  - reflexivity.
  - unfold ret, footer, emit. cbn.
    rewrite <- List.app_assoc. reflexivity.
Qed.


(** Sections 5 to 7 leave the session as section 4 set it. *)
Lemma after_guidance_session (mean : list float -> float) (inp : Inputs)
  (feed : Feed) (clk : Clock) (q : Quote) (r1 : Run) :
  session (after_guidance mean inp feed clk q r1) = session r1.
Proof.
  unfold after_guidance.
  destruct (lookup_history feed (at_chart clk) (days_of (window inp))
              (history_cache r1)) as [[series cache6] ds6].
  destruct (lookup_history feed (at_averages clk) 365 cache6)
    as [[hist365 cache7] ds7].
  reflexivity.
Qed.

(** When auto-refresh is on, a successful section 4 stamps the load time
    of this very run. *)
Lemma load_data_auto_stamp (inp : Inputs) (feed : Feed) (clk : Clock)
  (r r1 : Run) (q : Quote) :
  auto_refresh inp = true ->
  load_data inp feed clk r = (r1, inr q) ->
  session r1 = {| fx := Some q; loaded_at := Some (at_load clk) |}.
Proof.
  intros Hauto Hload. rewrite (load_data_auto _ _ _ _ Hauto) in Hload.
  destruct (lookup_latest feed (at_fetch clk) (latest_cache r))
    as [[[e | q'] cache'] ds]; inversion Hload; subst. reflexivity.
Qed.



(** The countdown around the threshold: no rerun 59 seconds after the
    load, a rerun one microsecond later, at 59.5 and at 60 seconds. *)
Lemma countdown_boundary :
  flt (remaining_of (total_seconds 0)) f1 = false
  /\ flt (remaining_of (total_seconds 59000000)) f1 = false
  /\ flt (remaining_of (total_seconds 59000001)) f1 = true
  /\ flt (remaining_of (total_seconds 59500000)) f1 = true
  /\ flt (remaining_of (total_seconds 60000000)) f1 = true
  /\ flt (remaining_of (total_seconds 3600000000)) f1 = true.
Proof. repeat (split; [ vm_compute; reflexivity | ]). vm_compute. reflexivity. Qed.

(** Half a second before the minute is over: 59.5 seconds after the load
    the countdown is 0.5, the progress bar shows 0 seconds, and the run
    sleeps for one second and reruns. *)
Lemma rerun_in_the_last_second :
  snd (render mean_ltr (inputs true Days7) feed_open (clock_from 0 59500000)
         cold_start) = inl (Rerun 1)
  /\ at_timer (clock_from 0 59500000) - at_load (clock_from 0 59500000)
     < seconds 60
  /\ total_seconds 59500000 = decimal 595 10
  /\ fle f60 (total_seconds 59500000) = false
  /\ remaining_of (total_seconds 59500000) = decimal 5 10
  /\ In (Progress (fdiv (fsub f60 (decimal 5 10)) f60) 0)
       (page (fst (render mean_ltr (inputs true Days7) feed_open
                     (clock_from 0 59500000) cold_start))).
Proof.
  split; [ vm_compute; reflexivity | ].
  split; [ vm_compute; reflexivity | ].
  split; [ vm_compute; reflexivity | ].
  split; [ vm_compute; reflexivity | ].
  split; [ vm_compute; reflexivity | ].
  vm_compute. tauto.
Qed.

(* ===================================================================== *)
(** ** An empty history *)
(* ===================================================================== *)

Lemma int_of_finite (x : float) :
  is_finite x = true -> exists n, int_of_float x = Some n.
Proof.
  destruct x; intros H; try discriminate; eexists; reflexivity.
Qed.

(** C9. In every run in which the series fetched for the selected window
    is empty, the chart section only shows its notice; the current rate,
    the conversion and the KPI cards with the three averages of the
    fallback policy are on the page, and the run goes on to the timer and
    the footer.  It ends normally: with the footer when auto-refresh is
    off, and with a rerun or the footer, never with an exception, when
    auto-refresh is on and the countdown is a finite number. *)
Theorem empty_history_confined (mean : list float -> float) (inp : Inputs)
  (feed : Feed) (clk : Clock) (r r1 : Run) (q : Quote)
  (cache6 cache7 : gmap Z (Cached Series)) (ds6 ds7 : list Download)
  (hist365 : Series) :
  refresh_now inp = false ->
  load_data inp feed clk r = (r1, inr q) ->
  lookup_history feed (at_chart clk) (days_of (window inp))
    (history_cache r1) = ([], cache6, ds6) ->
  lookup_history feed (at_averages clk) 365 cache6
    = (hist365, cache7, ds7) ->
  let shown :=
    page r1
    ++ [ RateCard (rate q) (timestamp q);
         ConversionCard (usd_amount inp) (fmul (usd_amount inp) (rate q));
         NoDataError ]
    ++ kpi_widgets (rate q) (avg7 mean hist365 (rate q))
         (avg30 mean hist365 (rate q)) (avg365 mean hist365 (rate q)) in
  let r7 :=
    {| session := session r1; latest_cache := latest_cache r1;
       history_cache := cache7; page := shown;
       sent := sent r1 ++ ds6 ++ ds7 |} in
  render mean inp feed clk r = timer_and_footer inp clk q r7
  /\ (auto_refresh inp = false ->
      render mean inp feed clk r
      = ({| session := session r1; latest_cache := latest_cache r1;
            history_cache := cache7;
            page := shown ++ [Footer (timestamp q)];
            sent := sent r1 ++ ds6 ++ ds7 |}, inr tt))
  /\ (auto_refresh inp = true ->
      is_finite (remaining_of (total_seconds (at_timer clk - at_load clk)))
      = true ->
      (snd (render mean inp feed clk r) = inl (Rerun 1)
       \/ snd (render mean inp feed clk r) = inr tt)
      /\ exists rest, page (fst (render mean inp feed clk r)) = shown ++ rest).
Proof.
  intros Hbtn Hload H6 H7 shown r7.
  assert (Hrun : render mean inp feed clk r = timer_and_footer inp clk q r7).
  { rewrite (render_after_load mean inp feed clk r r1 q Hbtn Hload).
    unfold after_guidance. rewrite H6, H7. reflexivity. }
  split; [ exact Hrun | split ].
  - intros Hauto. rewrite Hrun.
    rewrite (timer_and_footer_off inp clk q r7 Hauto). reflexivity.
  - intros Hauto Hfin. rewrite Hrun.
    assert (Hstamp : loaded_at (session r7) = Some (at_load clk)).
    { unfold r7. cbn [session].
      rewrite (load_data_auto_stamp _ _ _ _ _ _ Hauto Hload). reflexivity. }
    rewrite (timer_and_footer_on inp clk q r7 (at_load clk) Hauto Hstamp).
    cbv zeta. destruct (int_of_finite _ Hfin) as [n Hn]. rewrite Hn.
    destruct (flt (remaining_of (total_seconds (at_timer clk - at_load clk)))
                f1); cbn [fst snd page r7].
    + split; [ left; reflexivity | eexists; reflexivity ].
    + split; [ right; reflexivity | eexists; reflexivity ].
Qed.

Lemma empty_history_confined_witness :
  snd (render mean_ltr (inputs false Days7) feed_380 (clock_from 0 0)
         cold_start) = inr tt
  /\ In NoDataError
       (page (fst (render mean_ltr (inputs false Days7) feed_380
                     (clock_from 0 0) cold_start)))
  /\ In (Metric 365 (mean_ltr [decimal 380 100; decimal 381 100])
           (fsub (decimal 380 100)
              (mean_ltr [decimal 380 100; decimal 381 100])))
       (page (fst (render mean_ltr (inputs false Days7) feed_380
                     (clock_from 0 0) cold_start))).
Proof.
  eassert (HL : load_data (inputs false Days7) feed_380 (clock_from 0 0)
                  cold_start = (_, inr _)).
  { vm_compute. reflexivity. }
  match type of HL with
  | _ = (?r1, _) =>
      eassert (H6 : lookup_history feed_380 (at_chart (clock_from 0 0))
                      (days_of (window (inputs false Days7)))
                      (history_cache r1) = ([], _, _))
  end.
  { vm_compute. reflexivity. }
  match type of H6 with
  | _ = (_, ?c6, _) =>
      eassert (H7 : lookup_history feed_380 (at_averages (clock_from 0 0))
                      365 c6 = (_, _, _))
  end.
  { vm_compute. reflexivity. }
  rewrite (proj1 (proj2 (empty_history_confined mean_ltr
                      (inputs false Days7) feed_380 (clock_from 0 0)
                      cold_start _ _ _ _ _ _ _ eq_refl HL H6 H7)) eq_refl).
  split; [ reflexivity | ].
  split.
  - vm_compute. tauto.
  - vm_compute. tauto.
Defined.

Lemma fetch_latest_rate_fallback_witness :
  fetch_latest_rate feed_open 0
  = (inr {| rate := decimal 372 100; timestamp := strftime_minute 0 |},
     [Intraday])
  /\ fetch_latest_rate feed_closed 0
     = (inr {| rate := decimal 370 100; timestamp := strftime_minute 0 |},
        [Intraday; Daily])
  /\ exists ds, fetch_latest_rate feed_silent 0 = (inl IndexError, ds).
Proof.
  destruct (fetch_latest_rate_fallback feed_open 0) as (Hopen & _ & _).
  destruct (fetch_latest_rate_fallback feed_closed 0) as (_ & Hclosed & _).
  destruct (fetch_latest_rate_fallback feed_silent 0) as (_ & _ & Hsilent).
  split; [ | split ].
  - apply (Hopen [(1, decimal 371 100)] 2 (decimal 372 100)).
    + unfold feed_open. cbn [intraday]. intros H. inversion H.
    + vm_compute. reflexivity.
  - apply (Hclosed [] 0 (decimal 370 100)).
    + reflexivity.
    + vm_compute. reflexivity.
  - apply Hsilent; reflexivity.
Defined.

(* ===================================================================== *)
(** ** The "Refresh now" button *)
(* ===================================================================== *)

(** The quote helper contacts the feed exactly when the cache cannot
    serve, and then always with the intraday request. *)
Lemma lookup_latest_sent (feed : Feed) (now : Time)
  (cache cache' : option (Cached Quote)) (res : Exn + Quote)
  (ds : list Download) :
  lookup_latest feed now cache = (res, cache', ds) ->
  (In Intraday ds <-> latest_expired now cache).
Proof.
  unfold lookup_latest, latest_expired, fetch_latest_rate.
  destruct cache as [c | ]; [ destruct (fresh TTL_LATEST now c) | ];
    destruct (empty (intraday feed));
    try destruct (iloc (-1) (dropna (Close_column (daily feed))));
    try destruct (iloc (-1) (dropna (Close_column (intraday feed))));
    intros H; inversion H; subst; cbn; intuition congruence.
Qed.

(** The history helper only ever sends requests for a history. *)
Lemma lookup_history_sent (feed : Feed) (now : Time) (days : Z)
  (cache cache' : gmap Z (Cached Series)) (ser : Series)
  (ds : list Download) :
  lookup_history feed now days cache = (ser, cache', ds) ->
  ~ In Intraday ds.
Proof.
  unfold lookup_history, fetch_history.
  destruct (cache !! days) as [c | ]; [ destruct (fresh TTL_HISTORY now c) | ];
    intros H; inversion H; subst; cbn; intuition congruence.
Qed.

(** The timer and the footer leave the session, the caches and the log of
    requests alone. *)
Lemma timer_and_footer_keeps (inp : Inputs) (clk : Clock) (q : Quote)
  (r : Run) :
  sent (fst (timer_and_footer inp clk q r)) = sent r
  /\ session (fst (timer_and_footer inp clk q r)) = session r.
Proof.
  destruct (auto_refresh inp) eqn:Hauto.
  - unfold timer_and_footer, auto_refresh_timer. rewrite Hauto.
    unfold bind, get, raise, stop, experimental_rerun, emit, footer, ret.
    destruct (loaded_at (session r)) as [t0 | ]; [ | split; reflexivity ].
    destruct (int_of_float
                (remaining_of (total_seconds (at_timer clk - t0))))
      as [n | ]; [ | split; reflexivity ].
    destruct (flt (remaining_of (total_seconds (at_timer clk - t0))) f1);
      split; reflexivity.
  - rewrite (timer_and_footer_off inp clk q r Hauto). split; reflexivity.
Qed.

Lemma after_guidance_sent (mean : list float -> float) (inp : Inputs)
  (feed : Feed) (clk : Clock) (q : Quote) (r1 : Run) :
  exists hs, sent (after_guidance mean inp feed clk q r1) = sent r1 ++ hs
             /\ ~ In Intraday hs.
Proof.
  unfold after_guidance.
  destruct (lookup_history feed (at_chart clk) (days_of (window inp))
              (history_cache r1)) as [[series cache6] ds6] eqn:E6.
  destruct (lookup_history feed (at_averages clk) 365 cache6)
    as [[hist365 cache7] ds7] eqn:E7.
  exists (ds6 ++ ds7). split; [ reflexivity | ].
  intros Hin. apply List.in_app_or in Hin. destruct Hin as [Hin | Hin].
  - exact (lookup_history_sent _ _ _ _ _ _ _ E6 Hin).
  - exact (lookup_history_sent _ _ _ _ _ _ _ E7 Hin).
Qed.

Lemma lookup_latest_hit (feed : Feed) (now : Time) (c : Cached Quote) :
  fresh TTL_LATEST now c = true ->
  lookup_latest feed now (Some c) = (inr (value c), Some c, []).
Proof. intros H. unfold lookup_latest. rewrite H. reflexivity. Qed.

(** A click on "Refresh now" while a quote is loaded: the run it starts
    stops at once, and with auto-refresh on the rerun contacts the feed for
    the quote exactly when the cache cannot serve, a fresh cached quote
    being the one loaded otherwise. *)
Lemma refresh_now_requests (mean : list float -> float)
  (inp : Inputs) (feed : Feed) (clk1 clk2 : Clock) (r : Run) (q : Quote) :
  fx (session r) = Some q ->
  render mean (with_button true inp) feed clk1 (next_run r)
  = (next_run r, inl (Rerun 0))
  /\ (auto_refresh inp = true ->
      (In Intraday (snd (click_refresh_now mean inp feed clk1 clk2 r))
       <-> latest_expired (at_fetch clk2) (latest_cache r))
      /\ (forall c,
            latest_cache r = Some c ->
            fresh TTL_LATEST (at_fetch clk2) c = true ->
            fx (session (fst (fst
                 (click_refresh_now mean inp feed clk1 clk2 r))))
            = Some (value c))).
Proof.
  intros _.
  assert (Hpress : render mean (with_button true inp) feed clk1 (next_run r)
                   = (next_run r, inl (Rerun 0)))
    by (apply render_button_pressed; reflexivity).
  split; [ exact Hpress | ].
  intros Hauto. unfold click_refresh_now. rewrite Hpress.
  set (inp2 := with_button false inp).
  set (r0 := next_run (next_run r)).
  assert (Hauto2 : auto_refresh inp2 = true) by exact Hauto.
  assert (Hbtn2 : refresh_now inp2 = false) by reflexivity.
  pose proof (load_data_auto inp2 feed clk2 r0 Hauto2) as Hload.
  change (latest_cache r0) with (latest_cache r) in Hload.
  destruct (lookup_latest feed (at_fetch clk2) (latest_cache r))
    as [[[e | q'] cache'] ds] eqn:EL.
  - rewrite (render_load_stops mean inp2 feed clk2 r0 _ _ Hbtn2 Hload).
    cbn [fst snd sent session next_run r0 app]. split.
    + exact (lookup_latest_sent _ _ _ _ _ _ EL).
    + intros c Hc Hfresh. rewrite Hc in EL.
      rewrite (lookup_latest_hit feed _ c Hfresh) in EL. discriminate EL.
  - rewrite (render_after_load mean inp2 feed clk2 r0 _ q' Hbtn2 Hload).
    match goal with
    | |- context [timer_and_footer inp2 clk2 q' ?x] => set (r7 := x)
    end.
    destruct (timer_and_footer_keeps inp2 clk2 q' r7) as [Hsent Hsess].
    destruct (timer_and_footer inp2 clk2 q' r7) as [r2 o2].
    cbn [fst snd] in *. cbn [sent next_run app]. rewrite Hsent, Hsess.
    unfold r7. rewrite after_guidance_session.
    destruct (after_guidance_sent mean inp2 feed clk2 q'
                {| session :=
                     {| fx := Some q'; loaded_at := Some (at_load clk2) |};
                   latest_cache := cache';
                   history_cache := history_cache r0;
                   page := page r0; sent := sent r0 ++ ds |})
      as (hs & Hhs & Hno).
    rewrite Hhs. cbn [sent session fx r0 next_run app]. split.
    + rewrite <- (lookup_latest_sent _ _ _ _ _ _ EL).
      split.
      * intros Hin. apply List.in_app_or in Hin.
        destruct Hin as [Hin | Hin]; [ exact Hin | contradiction ].
      * intros Hin. apply List.in_or_app. left. exact Hin.
    + intros c Hc Hfresh. rewrite Hc in EL.
      rewrite (lookup_latest_hit feed _ c Hfresh) in EL.
      inversion EL. reflexivity.
Qed.

(** C4 as the specification states it fails.  A quote, 3.72, was loaded
    and cached at time 0 and the feed now quotes 3.80.  Ten seconds later,
    with auto-refresh on, a click on "Refresh now" sends no request for the
    quote: the cached 3.72 is served and stays loaded.  With auto-refresh
    off the same holds even an hour later, when the cached quote has long
    expired. *)
Lemma refresh_now_serves_cached_quote_counterexample :
  fx (session warm_run) = Some quote_372
  /\ fst (fetch_latest_rate feed_380 (seconds 10))
     = inr {| rate := decimal 380 100; timestamp := 0 |}
  /\ snd (click_refresh_now mean_ltr (inputs true Days7) feed_380
            (clock_from (seconds 10) 0) (clock_from (seconds 10) 0) warm_run)
     = [History 7; History 365]
  /\ fx (session (fst (fst
       (click_refresh_now mean_ltr (inputs true Days7) feed_380
          (clock_from (seconds 10) 0) (clock_from (seconds 10) 0)
          warm_run)))) = Some quote_372
  /\ latest_expired (seconds 3600) (latest_cache warm_run)
  /\ snd (click_refresh_now mean_ltr (inputs false Days7) feed_380
            (clock_from (seconds 3600) 0) (clock_from (seconds 3600) 0)
            warm_run)
     = [History 7; History 365]
  /\ fx (session (fst (fst
       (click_refresh_now mean_ltr (inputs false Days7) feed_380
          (clock_from (seconds 3600) 0) (clock_from (seconds 3600) 0)
          warm_run)))) = Some quote_372.
Proof.
  repeat (split; [ vm_compute; reflexivity | ]). vm_compute. reflexivity.
Qed.

(* ===================================================================== *)
(** * Further properties of the script *)
(* ===================================================================== *)

(** ** The data helpers *)

Lemma item_In {A : Type} (i : Z) (l : list A) (x : A) :
  item i l = Some x -> In x l.
Proof.
  unfold item.
  destruct ((0 <=? (if i <? 0 then i + Z.of_nat (length l) else i))
            && ((if i <? 0 then i + Z.of_nat (length l) else i)
                <? Z.of_nat (length l))); [ | discriminate ].
  apply List.nth_error_In.
Qed.

Lemma iloc_last_none (s : Series) : iloc (-1) s = None <-> s = [].
Proof.
  split; [ | intros ->; reflexivity ].
  destruct s as [ | p s ] using List.rev_ind; [ reflexivity | ].
  destruct p as [i c]. rewrite iloc_last. discriminate.
Qed.

Lemma In_dropna_Close (df : DataFrame) (c : float) :
  In c (values (dropna (Close_column df))) ->
  is_nan c = false /\ In c (map Close df).
Proof.
  unfold values, dropna, Close_column. intros H.
  apply List.in_map_iff in H. destruct H as ([i c'] & Hc & Hin).
  cbn in Hc. subst c'. apply List.filter_In in Hin.
  destruct Hin as [Hin Hnan]. cbn in Hnan. split.
  - destruct (is_nan c); [ discriminate | reflexivity ].
  - apply List.in_map_iff in Hin. destruct Hin as (row & Hrow & Hin).
    apply List.in_map_iff. exists row. split; [ | exact Hin ].
    inversion Hrow. reflexivity.
Qed.

(** A quote [fetch_latest_rate] returns is never a NaN: its rate is a
    close present in the frame consulted, stamped with the minute of the
    call; the daily request is sent exactly when the intraday frame came
    back empty. *)
Theorem fetch_latest_rate_quote (feed : Feed) (now : Time) (q : Quote)
  (ds : list Download) :
  fetch_latest_rate feed now = (inr q, ds) ->
  is_nan (rate q) = false
  /\ In (rate q) (map Close (consulted_frame feed))
  /\ timestamp q = strftime_minute now
  /\ ds = (if empty (intraday feed) then [Intraday; Daily] else [Intraday]).
Proof.
  unfold fetch_latest_rate, consulted_frame.
  destruct (empty (intraday feed));
    match goal with
    | |- context [iloc (-1) ?s] => destruct (iloc (-1) s) as [c | ] eqn:E
    end;
    intros H; inversion H; subst; cbn [rate timestamp];
    apply item_In, In_dropna_Close in E; destruct E as [Hn Hin];
    repeat split; assumption.
Qed.

Lemma fetch_latest_rate_quote_witness :
  is_nan (decimal 372 100) = false
  /\ In (decimal 372 100) (map Close (consulted_frame feed_open)).
Proof.
  destruct (fetch_latest_rate_quote feed_open 0
              {| rate := decimal 372 100; timestamp := strftime_minute 0 |}
              [Intraday]) as (H1 & H2 & _).
  - vm_compute. reflexivity.
  - split; [ exact H1 | exact H2 ].
Defined.

(** [fetch_latest_rate] raises exactly when the frame consulted has no
    close, and then it is an [IndexError]; in particular an intraday frame
    that has rows but no close makes it raise whatever the daily frame
    holds, since only an empty intraday frame triggers the fallback. *)
Theorem fetch_latest_rate_raises_iff (feed : Feed) (now : Time) :
  ((exists e ds, fetch_latest_rate feed now = (inl e, ds))
   <-> dropna (Close_column (consulted_frame feed)) = [])
  /\ (forall e ds, fetch_latest_rate feed now = (inl e, ds) ->
      e = IndexError)
  /\ (intraday feed <> [] ->
      dropna (Close_column (intraday feed)) = [] ->
      fetch_latest_rate feed now = (inl IndexError, [Intraday])).
Proof.
  unfold fetch_latest_rate, consulted_frame. split; [ | split ].
  - destruct (empty (intraday feed));
      match goal with
      | |- context [iloc (-1) ?s] =>
          destruct (iloc (-1) s) as [c | ] eqn:E
      end.
    + split; [ intros (e & ds & H); discriminate H | ].
      intros H. apply iloc_last_none in H. congruence.
    + split; [ intros _; apply iloc_last_none; exact E | ].
      intros _. eexists. eexists. reflexivity.
    + split; [ intros (e & ds & H); discriminate H | ].
      intros H. apply iloc_last_none in H. congruence.
    + split; [ intros _; apply iloc_last_none; exact E | ].
      intros _. eexists. eexists. reflexivity.
  - intros e ds.
    destruct (empty (intraday feed));
      match goal with
      | |- context [iloc (-1) ?s] => destruct (iloc (-1) s) as [c | ]
      end; intros H; inversion H; reflexivity.
  - intros Hne Hnan.
    destruct (intraday feed) as [ | row rows ]; [ congruence | ].
    cbn [empty]. rewrite Hnan. reflexivity.
Qed.

Lemma fetch_latest_rate_raises_iff_witness :
  fetch_latest_rate feed_gaps 0 = (inl IndexError, [Intraday])
  /\ dropna (Close_column (daily feed_gaps)) <> [].
Proof.
  split.
  - apply (fetch_latest_rate_raises_iff feed_gaps 0).
    + unfold feed_gaps. cbn [intraday]. intros H. inversion H.
    + vm_compute. reflexivity.
  - vm_compute. intros H. inversion H.
Defined.

(** ** The two caches *)

(** Once the quote helper has contacted the feed at time [t] and got a
    quote, every call less than 15 minutes after [t] returns that quote
    without contacting the feed and without changing anything, whatever
    the feed would answer; from 15 minutes on the feed is contacted
    again. *)
Theorem quote_cache_ttl (feed feed' : Feed) (t t' : Time) (r r1 : Run)
  (q : Quote) :
  latest_expired t (latest_cache r) ->
  cached_fetch_latest_rate feed t r = (r1, inr q) ->
  (t' - t < TTL_LATEST ->
     cached_fetch_latest_rate feed' t' r1 = (r1, inr q))
  /\ (TTL_LATEST <= t' - t ->
      sent (fst (cached_fetch_latest_rate feed' t' r1))
      = sent r1 ++ snd (fetch_latest_rate feed' t')).
Proof.
  intros Hexp Hcall. rewrite cached_fetch_latest_rate_run in Hcall.
  assert (Hstored : latest_cache r1 = Some {| value := q; stored_at := t |}).
  { unfold lookup_latest, latest_expired in *.
    destruct (latest_cache r) as [c | ];
      [ rewrite Hexp in Hcall | ];
      destruct (fetch_latest_rate feed t) as [[e | q0] ds];
      inversion Hcall; subst; reflexivity. }
  split; intros Hage; rewrite cached_fetch_latest_rate_run, Hstored;
    unfold lookup_latest, fresh; cbn [stored_at value].
  - destruct (Z.ltb_spec (t' - t) TTL_LATEST); [ | lia ].
    rewrite List.app_nil_r, <- Hstored, run_eta. reflexivity.
  - destruct (Z.ltb_spec (t' - t) TTL_LATEST); [ lia | ].
    destruct (fetch_latest_rate feed' t') as [[e | q0] ds]; reflexivity.
Qed.

Lemma quote_cache_ttl_witness :
  cached_fetch_latest_rate feed_silent (seconds 899)
    (fst (cached_fetch_latest_rate feed_open 0 cold_start))
  = (fst (cached_fetch_latest_rate feed_open 0 cold_start),
     inr {| rate := decimal 372 100; timestamp := 0 |}).
Proof.
  eapply (proj1 (quote_cache_ttl feed_open feed_silent 0 (seconds 899)
                   cold_start _ _ I _)).
  vm_compute. reflexivity.
  Unshelve. vm_compute. reflexivity.
Defined.

(** The history helper keeps one entry per window: once a call for [days]
    has contacted the feed at time [t], every call for the same window
    less than 60 minutes after [t] returns the same series without a
    request, the entries of the other windows are untouched, and from 60
    minutes on the feed is asked again. *)
Theorem history_cache_ttl (feed feed' : Feed) (t t' : Time) (days days' : Z)
  (r r1 : Run) (ser : Series) :
  snd (lookup_history feed t days (history_cache r)) = [History days] ->
  cached_fetch_history feed t days r = (r1, inr ser) ->
  (t' - t < TTL_HISTORY ->
     cached_fetch_history feed' t' days r1 = (r1, inr ser))
  /\ (days' <> days -> history_cache r1 !! days' = history_cache r !! days')
  /\ (TTL_HISTORY <= t' - t ->
      sent (fst (cached_fetch_history feed' t' days r1))
      = sent r1 ++ [History days]).
Proof.
  intros Hmiss Hcall. rewrite cached_fetch_history_run in Hcall.
  assert (Hstored : history_cache r1
                    = <[days := {| value := ser; stored_at := t |}]>
                        (history_cache r)).
  { unfold lookup_history, fetch_history in *.
    destruct (history_cache r !! days) as [c | ];
      [ destruct (fresh TTL_HISTORY t c); [ discriminate Hmiss | ] | ];
      inversion Hcall; subst; reflexivity. }
  split; [ | split ].
  - intros Hage. rewrite cached_fetch_history_run, Hstored.
    unfold lookup_history. rewrite lookup_insert_eq.
    unfold fresh. cbn [stored_at value].
    destruct (Z.ltb_spec (t' - t) TTL_HISTORY); [ | lia ].
    rewrite List.app_nil_r, <- Hstored, run_eta. reflexivity.
  - intros Hne. rewrite Hstored. apply lookup_insert_ne. congruence.
  - intros Hage. rewrite cached_fetch_history_run, Hstored.
    unfold lookup_history. rewrite lookup_insert_eq.
    unfold fresh, fetch_history. cbn [stored_at value].
    destruct (Z.ltb_spec (t' - t) TTL_HISTORY); [ lia | ]. reflexivity.
Qed.

Lemma history_cache_ttl_witness :
  cached_fetch_history feed_silent (seconds 3599) 365
    (fst (cached_fetch_history feed_holiday 0 365 cold_start))
  = (fst (cached_fetch_history feed_holiday 0 365 cold_start),
     inr [(1, decimal 380 100); (3, decimal 381 100)]).
Proof.
  eapply (proj1 (history_cache_ttl feed_holiday feed_silent 0 (seconds 3599)
                   365 7 cold_start _ _ eq_refl _)).
  vm_compute. reflexivity.
  Unshelve. vm_compute. reflexivity.
Defined.

(** ** The shape of a run *)

Lemma load_data_reload (inp : Inputs) (feed : Feed) (clk : Clock) (r : Run) :
  reloads inp r = true ->
  load_data inp feed clk r
  = let '(res, cache', ds) :=
      lookup_latest feed (at_fetch clk) (latest_cache r) in
    match res with
    | inl e =>
        ({| session := session r; latest_cache := cache';
            history_cache := history_cache r; page := page r;
            sent := sent r ++ ds |}, inl (Raised e))
    | inr q => (reloaded clk q cache' ds r, inr q)
    end.
Proof.
  unfold reloads. intros Hre. unfold load_data.
  unfold bind at 1. unfold get at 1. cbv beta iota. rewrite Hre.
  unfold bind at 1. unfold bind at 1.
  rewrite cached_fetch_latest_rate_run.
  destruct (lookup_latest feed (at_fetch clk) (latest_cache r))
    as [[[e | q] cache'] ds]; reflexivity.
Qed.

Lemma timer_and_footer_shape (inp : Inputs) (clk : Clock) (q : Quote)
  (r7 : Run) :
  timer_ending inp clk q r7 (fst (timer_and_footer inp clk q r7))
    (snd (timer_and_footer inp clk q r7)).
Proof.
  unfold timer_ending.
  destruct (auto_refresh inp) eqn:Hauto.
  - right. destruct (loaded_at (session r7)) as [t0 | ] eqn:Hat.
    + right. split; [ reflexivity | ]. exists t0. split; [ reflexivity | ].
      rewrite (timer_and_footer_on inp clk q r7 t0 Hauto Hat). cbv zeta.
      destruct (int_of_float
                  (remaining_of (total_seconds (at_timer clk - t0))))
        as [n | ]; [ right; exists n; split; [ reflexivity | ] | left ].
      * destruct (flt (remaining_of (total_seconds (at_timer clk - t0))) f1);
          [ left | right ]; repeat split; reflexivity.
      * repeat split; reflexivity.
    + left. unfold timer_and_footer, auto_refresh_timer. rewrite Hauto.
      unfold bind, get. rewrite Hat. repeat split; reflexivity.
  - left. rewrite (timer_and_footer_off inp clk q r7 Hauto).
    repeat split; reflexivity.
Qed.

(** Every run ends in one of the ways of [run_ending]. *)
Lemma render_shape (mean : list float -> float) (inp : Inputs) (feed : Feed)
  (clk : Clock) (r : Run) :
  run_ending mean inp feed clk r (fst (render mean inp feed clk r))
    (snd (render mean inp feed clk r)).
Proof.
  unfold run_ending.
  destruct (refresh_now inp) eqn:Hbtn.
  - left. rewrite (render_button_pressed mean inp feed clk r Hbtn).
    repeat split; reflexivity.
  - right. destruct (reloads inp r) eqn:Hre.
    + pose proof (load_data_reload inp feed clk r Hre) as Hload.
      destruct (lookup_latest feed (at_fetch clk) (latest_cache r))
        as [[[e | q] cache'] ds] eqn:EL.
      * left. rewrite (render_load_stops mean inp feed clk r _ _ Hbtn Hload).
        repeat split. exists e, cache', ds. repeat split; reflexivity.
      * right. split; [ reflexivity | ].
        exists q, (reloaded clk q cache' ds r).
        rewrite (render_after_load mean inp feed clk r _ q Hbtn Hload).
        split; [ | apply timer_and_footer_shape ].
        left. split; [ exact Hre | ]. exists cache', ds.
        split; [ exact EL | reflexivity ].
    + right. split; [ reflexivity | ].
      unfold reloads in Hre. apply orb_false_elim in Hre.
      destruct Hre as [Hauto Hkey]. unfold has_key_fx in Hkey.
      destruct (fx (session r)) as [q | ] eqn:Hfx; [ | discriminate Hkey ].
      exists q, r.
      rewrite (render_after_load mean inp feed clk r r q Hbtn
                 (load_data_loaded inp feed clk r q Hauto Hfx)).
      split; [ | apply timer_and_footer_shape ].
      right. repeat split; assumption.
Qed.

Lemma fetch_latest_rate_sends_intraday (feed : Feed) (now : Time) :
  In Intraday (snd (fetch_latest_rate feed now))
  /\ (forall e, fst (fetch_latest_rate feed now) = inl e -> e = IndexError).
Proof.
  unfold fetch_latest_rate.
  destruct (empty (intraday feed));
    match goal with
    | |- context [iloc (-1) ?s] => destruct (iloc (-1) s) as [c | ]
    end; cbn; (split; [ tauto | intros e H; inversion H; reflexivity ]).
Qed.

(** The countdown is never negative: what [int()] makes of it is a
    natural number. *)
Lemma countdown_int_nonneg (elapsed : float) (n : Z) :
  int_of_float (remaining_of elapsed) = Some n -> 0 <= n.
Proof.
  unfold remaining_of, max0.
  destruct (flt (S754_zero false) (fsub f60 elapsed)) eqn:Hpos.
  - destruct (fsub f60 elapsed) as [s | s | | s m e]; cbn;
      intros H; inversion H; subst; try lia.
    destruct s; [ cbv in Hpos; discriminate Hpos | ].
    cbn [cond_Zopp]. apply Z.shiftl_nonneg. lia.
  - cbn. intros H. inversion H. lia.
Qed.

Lemma timer_ending_keeps (inp : Inputs) (clk : Clock) (q : Quote)
  (r7 r' : Run) (o : Stop + unit) :
  timer_ending inp clk q r7 r' o ->
  session r' = session r7 /\ latest_cache r' = latest_cache r7
  /\ history_cache r' = history_cache r7 /\ sent r' = sent r7
  /\ exists ws,
       page r' = page r7 ++ ws
       /\ forall w, In w ws ->
            w = Footer (timestamp q)
            \/ exists fr n,
                 w = Progress fr n /\ auto_refresh inp = true /\ 0 <= n.
Proof.
  unfold timer_ending.
  intros [ (Hauto & -> & ->)
         | [ (Hauto & Hat & -> & ->)
           | (Hauto & t0 & Hat & [ (Hint & -> & ->)
                                 | (n & Hint & [ (Hlt & -> & ->)
                                               | (Hlt & -> & ->) ]) ]) ] ];
    cbn [with_widgets session latest_cache history_cache sent page];
    repeat (split; [ reflexivity | ]).
  - exists [Footer (timestamp q)]. split; [ reflexivity | ].
    intros w [<- | []]. left. reflexivity.
  - exists []. split; [ rewrite List.app_nil_r; reflexivity | intros w [] ].
  - exists []. split; [ rewrite List.app_nil_r; reflexivity | intros w [] ].
  - eexists. split; [ reflexivity | ].
    intros w [<- | []]. right. eexists. exists n.
    split; [ reflexivity | split; [ exact Hauto | ] ].
    exact (countdown_int_nonneg _ _ Hint).
  - eexists. split; [ reflexivity | ].
    intros w [<- | [<- | []]]; [ right | left; reflexivity ].
    eexists. exists n.
    split; [ reflexivity | split; [ exact Hauto | ] ].
    exact (countdown_int_nonneg _ _ Hint).
Qed.

Lemma after_guidance_keeps (mean : list float -> float) (inp : Inputs)
  (feed : Feed) (clk : Clock) (q : Quote) (r1 : Run) :
  session (after_guidance mean inp feed clk q r1) = session r1
  /\ latest_cache (after_guidance mean inp feed clk q r1) = latest_cache r1
  /\ exists series hist365 ds6 ds7,
       page (after_guidance mean inp feed clk q r1)
       = page r1
         ++ [ RateCard (rate q) (timestamp q);
              ConversionCard (usd_amount inp)
                (fmul (usd_amount inp) (rate q));
              chart_widget series (rate q) ]
         ++ kpi_widgets (rate q) (avg7 mean hist365 (rate q))
              (avg30 mean hist365 (rate q)) (avg365 mean hist365 (rate q))
       /\ sent (after_guidance mean inp feed clk q r1)
          = sent r1 ++ ds6 ++ ds7
       /\ (ds6 = [] \/ ds6 = [History (days_of (window inp))])
       /\ (ds7 = [] \/ ds7 = [History 365]).
Proof.
  unfold after_guidance.
  destruct (lookup_history feed (at_chart clk) (days_of (window inp))
              (history_cache r1)) as [[series cache6] ds6] eqn:E6.
  destruct (lookup_history feed (at_averages clk) 365 cache6)
    as [[hist365 cache7] ds7] eqn:E7.
  cbn [session latest_cache page sent].
  split; [ reflexivity | split; [ reflexivity | ] ].
  exists series, hist365, ds6, ds7.
  split; [ reflexivity | split; [ reflexivity | ] ].
  unfold lookup_history, fetch_history in E6, E7. split.
  - destruct (history_cache r1 !! days_of (window inp)) as [c | ];
      [ destruct (fresh TTL_HISTORY (at_chart clk) c) | ];
      inversion E6; tauto.
  - destruct (cache6 !! 365) as [c | ];
      [ destruct (fresh TTL_HISTORY (at_averages clk) c) | ];
      inversion E7; tauto.
Qed.

(** ** Whole runs *)

(** When the quote has to be fetched and the feed has no close to give,
    the run stops with an [IndexError] before drawing anything: the page,
    the session and both caches are as they were, and only the requests
    made are added to the log. *)
Theorem no_quote_stops_run (mean : list float -> float) (inp : Inputs)
  (feed : Feed) (clk : Clock) (r : Run) (e : Exn) (ds : list Download) :
  refresh_now inp = false ->
  reloads inp r = true ->
  latest_expired (at_fetch clk) (latest_cache r) ->
  fetch_latest_rate feed (at_fetch clk) = (inl e, ds) ->
  render mean inp feed clk r
  = ({| session := session r; latest_cache := latest_cache r;
        history_cache := history_cache r; page := page r;
        sent := sent r ++ ds |}, inl (Raised IndexError))
  /\ In Intraday ds.
Proof.
  intros Hbtn Hre Hexp Hfetch.
  pose proof (fetch_latest_rate_sends_intraday feed (at_fetch clk))
    as [Hin Herr].
  rewrite Hfetch in Hin, Herr. cbn [fst snd] in Hin, Herr.
  rewrite (Herr e eq_refl) in Hfetch.
  split; [ | exact Hin ].
  apply (render_load_stops mean inp feed clk r _ _ Hbtn).
  rewrite (load_data_reload inp feed clk r Hre).
  unfold lookup_latest, latest_expired in *.
  destruct (latest_cache r) as [c | ]; [ rewrite Hexp | ];
    rewrite Hfetch; reflexivity.
Qed.

Lemma no_quote_stops_run_witness :
  render mean_ltr (inputs false Days7) feed_gaps (clock_from 0 0) cold_start
  = ({| session := session cold_start;
        latest_cache := latest_cache cold_start;
        history_cache := history_cache cold_start;
        page := page cold_start;
        sent := sent cold_start ++ [Intraday] |}, inl (Raised IndexError)).
Proof.
  apply (no_quote_stops_run mean_ltr (inputs false Days7) feed_gaps
           (clock_from 0 0) cold_start IndexError [Intraday]
           eq_refl eq_refl I).
  vm_compute. reflexivity.
Defined.

(** A run contacts the feed for the quote exactly when the button is not
    pressed, section 4 reloads (auto-refresh is on or the session has no
    quote yet) and the cache cannot serve. *)
Theorem quote_requested_iff (mean : list float -> float) (inp : Inputs)
  (feed : Feed) (clk : Clock) (r : Run) :
  In Intraday (sent (fst (render mean inp feed clk (next_run r))))
  <-> refresh_now inp = false
      /\ reloads inp r = true
      /\ latest_expired (at_fetch clk) (latest_cache r).
Proof.
  pose proof (render_shape mean inp feed clk (next_run r)) as Hshape.
  change (reloads inp (next_run r)) with (reloads inp r) in Hshape.
  destruct (render mean inp feed clk (next_run r)) as [r' o].
  cbn [fst snd] in *. unfold run_ending in Hshape.
  change (latest_cache (next_run r)) with (latest_cache r) in Hshape.
  destruct Hshape as [ (Hbtn & -> & ->)
                     | [ (Hbtn & Hre & e & cache' & ds & EL & -> & ->)
                       | (Hbtn & q & r1 & Hdel & Hend) ] ].
  - cbn. split; [ intros [] | intros (H & _); congruence ].
  - cbn [sent next_run app].
    rewrite (lookup_latest_sent _ _ _ _ _ _ EL). tauto.
  - destruct (timer_ending_keeps _ _ _ _ _ _ Hend) as (_ & _ & _ & -> & _).
    destruct (after_guidance_keeps mean inp feed clk q r1)
      as (_ & _ & series & hist365 & ds6 & ds7 & _ & -> & H6 & H7).
    assert (Hhist : ~ In Intraday (ds6 ++ ds7)).
    { intros Hin. apply List.in_app_or in Hin.
      destruct Hin as [Hin | Hin], H6 as [-> | ->], H7 as [-> | ->];
        cbn in Hin; intuition discriminate. }
    unfold delivers in Hdel. change (reloads inp (next_run r))
      with (reloads inp r) in Hdel.
    change (latest_cache (next_run r)) with (latest_cache r) in Hdel.
    destruct Hdel as [ (Hre & cache' & ds & EL & ->)
                     | (Hauto & Hfx & ->) ].
    + cbn [reloaded sent next_run app].
      rewrite <- (lookup_latest_sent _ _ _ _ _ _ EL). split.
      * intros Hin. apply List.in_app_or in Hin.
        destruct Hin as [Hin | Hin]; [ | contradiction ].
        repeat split; assumption.
      * intros (_ & _ & Hin). apply List.in_or_app. left. exact Hin.
    + cbn [sent next_run app]. split; [ intros Hin; contradiction | ].
      intros (_ & Hre & _). unfold reloads, has_key_fx in Hre.
      change (session (next_run r)) with (session r) in Hfx.
      rewrite Hauto, Hfx in Hre. discriminate Hre.
Qed.

(** With auto-refresh off, a quote already in the session is shown as it
    is, however old: the run leaves the session and the quote cache
    untouched, heads the page with that quote and ends normally. *)
Theorem loaded_quote_is_reused (mean : list float -> float) (inp : Inputs)
  (feed : Feed) (clk : Clock) (r : Run) (q : Quote) :
  refresh_now inp = false ->
  auto_refresh inp = false ->
  fx (session r) = Some q ->
  session (fst (render mean inp feed clk r)) = session r
  /\ latest_cache (fst (render mean inp feed clk r)) = latest_cache r
  /\ snd (render mean inp feed clk r) = inr tt
  /\ exists rest,
       page (fst (render mean inp feed clk r))
       = page r ++ RateCard (rate q) (timestamp q) :: rest.
Proof.
  intros Hbtn Hauto Hfx.
  rewrite (render_after_load mean inp feed clk r r q Hbtn
             (load_data_loaded inp feed clk r q Hauto Hfx)).
  rewrite (timer_and_footer_off inp clk q _ Hauto).
  cbn [fst snd session latest_cache page].
  destruct (after_guidance_keeps mean inp feed clk q r)
    as (-> & -> & series & hist365 & ds6 & ds7 & -> & _).
  repeat (split; [ reflexivity | ]).
  eexists. rewrite <- List.app_assoc. cbn [app]. reflexivity.
Qed.

Lemma loaded_quote_is_reused_witness :
  session (fst (render mean_ltr (inputs false Days7) feed_380
                  (clock_from (seconds 3600) 0) warm_run))
  = session warm_run.
Proof.
  apply (loaded_quote_is_reused mean_ltr (inputs false Days7) feed_380
           (clock_from (seconds 3600) 0) warm_run quote_372
           eq_refl eq_refl eq_refl).
Defined.

(** A run either leaves the session alone or stores a quote together with
    the load time of this run; so the two keys ["fx"] and ["loaded_at"]
    stay present together. *)
Theorem render_keeps_session_paired (mean : list float -> float)
  (inp : Inputs) (feed : Feed) (clk : Clock) (r : Run) :
  (session (fst (render mean inp feed clk r)) = session r
   \/ exists q, session (fst (render mean inp feed clk r))
                = {| fx := Some q; loaded_at := Some (at_load clk) |})
  /\ (session_paired (session r) ->
      session_paired (session (fst (render mean inp feed clk r)))).
Proof.
  assert (Hcases :
    session (fst (render mean inp feed clk r)) = session r
    \/ exists q, session (fst (render mean inp feed clk r))
                 = {| fx := Some q; loaded_at := Some (at_load clk) |}).
  { pose proof (render_shape mean inp feed clk r) as Hshape.
    destruct (render mean inp feed clk r) as [r' o]. cbn [fst snd] in *.
    destruct Hshape as [ (Hbtn & -> & ->)
                       | [ (Hbtn & Hre & e & cache' & ds & EL & -> & ->)
                         | (Hbtn & q & r1 & Hdel & Hend) ] ];
      [ left; reflexivity | left; reflexivity | ].
    destruct (timer_ending_keeps _ _ _ _ _ _ Hend) as (-> & _).
    rewrite after_guidance_session.
    destruct Hdel as [ (Hre & cache' & ds & EL & ->) | (Hauto & Hfx & ->) ];
      [ right; exists q; reflexivity | left; reflexivity ]. }
  split; [ exact Hcases | ].
  intros Hpaired. destruct Hcases as [-> | (q & ->)]; [ exact Hpaired | ].
  unfold session_paired. cbn. split; intros H; discriminate H.
Qed.

Lemma render_keeps_session_paired_witness :
  session_paired
    (session (fst (render mean_ltr (inputs true Days7) feed_open
                     (clock_from 0 0) cold_start))).
Proof.
  apply (render_keeps_session_paired mean_ltr (inputs true Days7) feed_open
           (clock_from 0 0) cold_start).
  unfold session_paired. cbn. tauto.
Defined.

(** The ways a run can end.  It ends normally only if the button is not
    pressed; in an immediate rerun exactly when the button is pressed; in
    a rerun after one second only with auto-refresh on; with an
    [IndexError] only when section 4 had to reload the quote; with a
    failed [int()] only in the timer; and never with a [KeyError]: the
    session keys are always present when they are read. *)
Theorem render_outcomes (mean : list float -> float) (inp : Inputs)
  (feed : Feed) (clk : Clock) (r : Run) :
  match snd (render mean inp feed clk r) with
  | inr tt => refresh_now inp = false
  | inl (Rerun d) =>
      (d = 0 /\ refresh_now inp = true)
      \/ (d = 1 /\ refresh_now inp = false /\ auto_refresh inp = true)
  | inl (Raised IndexError) =>
      refresh_now inp = false /\ reloads inp r = true
      /\ latest_expired (at_fetch clk) (latest_cache r)
  | inl (Raised ConversionError) =>
      refresh_now inp = false /\ auto_refresh inp = true
  | inl (Raised KeyError) => False
  end.
Proof.
  pose proof (render_shape mean inp feed clk r) as Hshape.
  destruct (render mean inp feed clk r) as [r' o]. cbn [fst snd] in *.
  destruct Hshape as [ (Hbtn & -> & ->)
                     | [ (Hbtn & Hre & e & cache' & ds & EL & -> & ->)
                       | (Hbtn & q & r1 & Hdel & Hend) ] ].
  - left. split; [ reflexivity | exact Hbtn ].
  - pose proof (lookup_latest_sent _ _ _ _ _ _ EL) as Hexp.
    pose proof (fetch_latest_rate_sends_intraday feed (at_fetch clk))
      as [Hin Herr].
    unfold lookup_latest in EL.
    assert (He : e = IndexError /\ In Intraday ds).
    { destruct (latest_cache r) as [c | ];
        [ destruct (fresh TTL_LATEST (at_fetch clk) c);
          [ discriminate EL | ] | ];
        destruct (fetch_latest_rate feed (at_fetch clk)) as [[e0 | q0] ds0];
        inversion EL; subst; cbn [fst snd] in *;
        (split; [ apply Herr; reflexivity | exact Hin ]). }
    destruct He as [-> Hds]. apply Hexp in Hds. repeat split; assumption.
  - unfold timer_ending in Hend.
    destruct Hend
      as [ (Hauto & -> & ->)
         | [ (Hauto & Hat & -> & ->)
           | (Hauto & t0 & Hat & [ (Hint & -> & ->)
                                 | (n & Hint & [ (Hlt & -> & ->)
                                               | (Hlt & -> & ->) ]) ]) ] ].
    + exact Hbtn.
    + rewrite after_guidance_session in Hat.
      destruct Hdel as [ (Hre & cache' & ds & EL & ->) | (Hauto' & _) ];
        [ discriminate Hat | congruence ].
    + split; assumption.
    + right. repeat split; assumption.
    + exact Hbtn.
Qed.

(** A run sends at most one request for the history of the selected window
    and at most one for the 365-day history, after any request for the
    quote, and asks for no other history. *)
Theorem history_requests (mean : list float -> float) (inp : Inputs)
  (feed : Feed) (clk : Clock) (r : Run) :
  exists quote_ds ds6 ds7,
    sent (fst (render mean inp feed clk (next_run r)))
    = quote_ds ++ ds6 ++ ds7
    /\ (quote_ds = [] \/ quote_ds = [Intraday]
        \/ quote_ds = [Intraday; Daily])
    /\ (ds6 = [] \/ ds6 = [History (days_of (window inp))])
    /\ (ds7 = [] \/ ds7 = [History 365]).
Proof.
  assert (Hquote : forall res cache' ds,
            lookup_latest feed (at_fetch clk) (latest_cache r)
            = (res, cache', ds) ->
            ds = [] \/ ds = [Intraday] \/ ds = [Intraday; Daily]).
  { intros res cache' ds. unfold lookup_latest, fetch_latest_rate.
    destruct (latest_cache r) as [c | ];
      [ destruct (fresh TTL_LATEST (at_fetch clk) c) | ];
      destruct (empty (intraday feed));
      try destruct (iloc (-1) (dropna (Close_column (daily feed))));
      try destruct (iloc (-1) (dropna (Close_column (intraday feed))));
      intros H; inversion H; tauto. }
  pose proof (render_shape mean inp feed clk (next_run r)) as Hshape.
  destruct (render mean inp feed clk (next_run r)) as [r' o].
  cbn [fst snd] in *.
  destruct Hshape as [ (Hbtn & -> & ->)
                     | [ (Hbtn & Hre & e & cache' & ds & EL & -> & ->)
                       | (Hbtn & q & r1 & Hdel & Hend) ] ].
  - exists [], [], []. cbn. tauto.
  - exists ds, [], []. cbn [sent next_run app].
    rewrite List.app_nil_r.
    split; [ reflexivity | split; [ | tauto ] ].
    exact (Hquote _ _ _ EL).
  - destruct (timer_ending_keeps _ _ _ _ _ _ Hend) as (_ & _ & _ & -> & _).
    destruct (after_guidance_keeps mean inp feed clk q r1)
      as (_ & _ & series & hist365 & ds6 & ds7 & _ & -> & H6 & H7).
    destruct Hdel as [ (Hre & cache' & ds & EL & ->) | (Hauto & Hfx & ->) ].
    + exists ds, ds6, ds7. cbn [reloaded sent next_run app].
      split; [ reflexivity | split; [ | tauto ] ].
      exact (Hquote _ _ _ EL).
    + exists [], ds6, ds7. cbn [sent next_run app]. tauto.
Qed.

(** A progress bar is drawn only with auto-refresh on, and the seconds it
    announces are never negative. *)
Theorem progress_only_when_auto (mean : list float -> float) (inp : Inputs)
  (feed : Feed) (clk : Clock) (r : Run) (fraction : float) (n : Z) :
  In (Progress fraction n)
    (page (fst (render mean inp feed clk (next_run r)))) ->
  auto_refresh inp = true /\ 0 <= n.
Proof.
  pose proof (render_shape mean inp feed clk (next_run r)) as Hshape.
  destruct (render mean inp feed clk (next_run r)) as [r' o].
  cbn [fst snd] in *.
  destruct Hshape as [ (Hbtn & -> & ->)
                     | [ (Hbtn & Hre & e & cache' & ds & EL & -> & ->)
                       | (Hbtn & q & r1 & Hdel & Hend) ] ];
    [ intros [] | intros [] | ].
  destruct (timer_ending_keeps _ _ _ _ _ _ Hend)
    as (_ & _ & _ & _ & ws & -> & Hws).
  destruct (after_guidance_keeps mean inp feed clk q r1)
    as (_ & _ & series & hist365 & ds6 & ds7 & -> & _).
  assert (Hpage1 : page r1 = []).
  { destruct Hdel as [ (_ & cache' & ds & _ & ->) | (_ & _ & ->) ];
      reflexivity. }
  rewrite Hpage1. intros Hin.
  apply List.in_app_or in Hin. destruct Hin as [Hin | Hin].
  - exfalso. unfold chart_widget, kpi_widgets in Hin.
    destruct (negb (empty series));
      destruct (recommendation
                  (score (rate q) (avg7 mean hist365 (rate q))
                     (avg30 mean hist365 (rate q))
                     (avg365 mean hist365 (rate q))));
      cbn in Hin; intuition discriminate.
  - destruct (Hws _ Hin) as [Hfoot | (fr & m & Heq & Hauto & Hm)];
      [ discriminate Hfoot | ].
    inversion Heq; subst. split; assumption.
Qed.

Lemma progress_only_when_auto_witness :
  auto_refresh (inputs true Days7) = true /\ 0 <= 0.
Proof.
  apply (progress_only_when_auto mean_ltr (inputs true Days7) feed_open
           (clock_from 0 59500000) cold_start
           (fdiv (fsub f60 (decimal 5 10)) f60) 0).
  vm_compute. tauto.
Defined.

(** The chart is never drawn empty and never together with the no-data
    notice; its dashed rule is the rate shown in the rate card. *)
Theorem chart_never_empty (mean : list float -> float) (inp : Inputs)
  (feed : Feed) (clk : Clock) (r : Run) (series : Series) (c : float) :
  In (HistoryChart series c)
    (page (fst (render mean inp feed clk (next_run r)))) ->
  series <> []
  /\ ~ In NoDataError (page (fst (render mean inp feed clk (next_run r))))
  /\ exists t, In (RateCard c t)
                 (page (fst (render mean inp feed clk (next_run r)))).
Proof.
  pose proof (render_shape mean inp feed clk (next_run r)) as Hshape.
  destruct (render mean inp feed clk (next_run r)) as [r' o].
  cbn [fst snd] in *.
  destruct Hshape as [ (Hbtn & -> & ->)
                     | [ (Hbtn & Hre & e & cache' & ds & EL & -> & ->)
                       | (Hbtn & q & r1 & Hdel & Hend) ] ];
    [ intros [] | intros [] | ].
  destruct (timer_ending_keeps _ _ _ _ _ _ Hend)
    as (_ & _ & _ & _ & ws & -> & Hws).
  destruct (after_guidance_keeps mean inp feed clk q r1)
    as (_ & _ & series' & hist365 & ds6 & ds7 & -> & _).
  assert (Hpage1 : page r1 = []).
  { destruct Hdel as [ (_ & cache' & ds & _ & ->) | (_ & _ & ->) ];
      reflexivity. }
  rewrite Hpage1.
  assert (Hws' : forall w, In w ws ->
                   w <> HistoryChart series c /\ w <> NoDataError).
  { intros w Hw.
    destruct (Hws w Hw) as [-> | (fr & m & -> & _)]; split; discriminate. }
  unfold chart_widget, kpi_widgets.
  destruct series' as [ | p series' ]; cbn [empty negb];
    destruct (recommendation
                (score (rate q) (avg7 mean hist365 (rate q))
                   (avg30 mean hist365 (rate q))
                   (avg365 mean hist365 (rate q))));
    intros Hin; apply List.in_app_or in Hin;
    (destruct Hin as [Hin | Hin];
       [ cbn in Hin | exfalso; exact (proj1 (Hws' _ Hin) eq_refl) ]);
    (repeat (destruct Hin as [Hin | Hin]; try discriminate Hin));
    try contradiction;
    inversion Hin; subst;
    (split; [ discriminate | split ]);
    try (exists (timestamp q); apply List.in_or_app; left; cbn; tauto);
    intros Hno; apply List.in_app_or in Hno;
    (destruct Hno as [Hno | Hno];
       [ cbn in Hno; intuition discriminate
       | exact (proj2 (Hws' _ Hno) eq_refl) ]).
Qed.

Lemma chart_never_empty_witness :
  [(1, decimal 380 100); (2, decimal 381 100)] <> []
  /\ ~ In NoDataError
         (page (fst (render mean_ltr (inputs false Days365) feed_380
                       (clock_from 0 0) (next_run cold_start)))).
Proof.
  destruct (chart_never_empty mean_ltr (inputs false Days365) feed_380
              (clock_from 0 0) cold_start
              [(1, decimal 380 100); (2, decimal 381 100)]
              (decimal 380 100)) as (H1 & H2 & _).
  - vm_compute. tauto.
  - split; assumption.
Defined.

(** ** The recommendation *)

(** The banner says BUY exactly when the current rate is below the 30-day
    average and below at least one of the other two averages. *)
Theorem buy_iff (current a7 a30 a365 : float) :
  recommendation (score current a7 a30 a365) = BUY
  <-> flt current a30 = true
      /\ (flt current a365 = true \/ flt current a7 = true).
Proof.
  unfold recommendation, score.
  destruct (flt current a365), (flt current a30), (flt current a7);
    vm_compute; intuition congruence.
Qed.

(** With fewer than 30 closes in the 365-day history the 30-day average is
    the current rate itself, its weight is never earned, and the banner is
    WAIT/SELL whatever the rate and the closes. *)
Theorem short_history_never_buy (mean : list float -> float)
  (hist365 : Series) (current : float) :
  len hist365 < 30 ->
  avg30 mean hist365 current = current
  /\ g_recommendation (guidance mean hist365 current) = WAIT_SELL
  /\ exists s,
       last (kpi_widgets current (avg7 mean hist365 current)
               (avg30 mean hist365 current) (avg365 mean hist365 current))
       = Some (Warning s).
Proof.
  intros Hlen.
  assert (H30 : avg30 mean hist365 current = current).
  { unfold avg30. destruct (Z.leb_spec 30 (len hist365)); [ lia | ].
    reflexivity. }
  split; [ exact H30 | ].
  unfold guidance, kpi_widgets. cbn [g_recommendation]. rewrite H30.
  assert (Hrec : recommendation
                   (score current (avg7 mean hist365 current) current
                      (avg365 mean hist365 current)) = WAIT_SELL).
  { unfold recommendation, score. rewrite (flt_irrefl current).
    destruct (flt current (avg365 mean hist365 current)),
      (flt current (avg7 mean hist365 current)); vm_compute; reflexivity. }
  rewrite Hrec. split; [ reflexivity | eexists; reflexivity ].
Qed.

Lemma short_history_never_buy_witness :
  g_recommendation (guidance mean_ltr one_close rate_372) = WAIT_SELL.
Proof.
  apply (short_history_never_buy mean_ltr one_close rate_372).
  vm_compute. reflexivity.
Defined.

(** The rate card always shows the quote the session holds when the run
    ends, and the footer, when the run gets to it, repeats the time stamp
    of that quote. *)
Theorem shown_quote_is_session_quote (mean : list float -> float)
  (inp : Inputs) (feed : Feed) (clk : Clock) (r : Run) (w : Widget) :
  In w (page (fst (render mean inp feed clk (next_run r)))) ->
  match w with
  | RateCard c t =>
      fx (session (fst (render mean inp feed clk (next_run r))))
      = Some {| rate := c; timestamp := t |}
  | Footer t =>
      exists c,
        fx (session (fst (render mean inp feed clk (next_run r))))
        = Some {| rate := c; timestamp := t |}
  | _ => True
  end.
Proof.
  pose proof (render_shape mean inp feed clk (next_run r)) as Hshape.
  destruct (render mean inp feed clk (next_run r)) as [r' o].
  cbn [fst snd] in *.
  destruct Hshape as [ (Hbtn & -> & ->)
                     | [ (Hbtn & Hre & e & cache' & ds & EL & -> & ->)
                       | (Hbtn & q & r1 & Hdel & Hend) ] ];
    [ intros [] | intros [] | ].
  destruct (timer_ending_keeps _ _ _ _ _ _ Hend)
    as (-> & _ & _ & _ & ws & -> & Hws).
  destruct (after_guidance_keeps mean inp feed clk q r1)
    as (-> & _ & series & hist365 & ds6 & ds7 & -> & _).
  assert (Hr1 : page r1 = [] /\ fx (session r1) = Some q).
  { destruct Hdel as [ (_ & cache' & ds & _ & ->) | (_ & Hfx & ->) ];
      split; try reflexivity. exact Hfx. }
  destruct Hr1 as [-> ->]. destruct q as [c0 t0]. cbn [rate timestamp] in *.
  intros Hin. apply List.in_app_or in Hin. destruct Hin as [Hin | Hin].
  - unfold chart_widget, kpi_widgets in Hin.
    destruct (negb (empty series));
      destruct (recommendation
                  (score c0 (avg7 mean hist365 c0) (avg30 mean hist365 c0)
                     (avg365 mean hist365 c0)));
      cbn in Hin;
      repeat (destruct Hin as [<- | Hin]; try exact I; try reflexivity);
      contradiction.
  - destruct (Hws _ Hin) as [-> | (fr & m & -> & _)]; [ | exact I ].
    exists c0. reflexivity.
Qed.

Lemma shown_quote_is_session_quote_witness :
  fx (session (fst (render mean_ltr (inputs false Days7) feed_380
                      (clock_from (seconds 3600) 0) (next_run warm_run))))
  = Some {| rate := rate_372; timestamp := 0 |}.
Proof.
  apply (shown_quote_is_session_quote mean_ltr (inputs false Days7) feed_380
           (clock_from (seconds 3600) 0) warm_run (RateCard rate_372 0)).
  vm_compute. tauto.
Defined.

(* ===================================================================== *)
(** ** The "Refresh now" button, in full *)
(* ===================================================================== *)

(** A click is the rerun it causes: the run started by the click stops
    before doing anything. *)
Lemma click_refresh_now_rerun (mean : list float -> float) (inp : Inputs)
  (feed : Feed) (clk1 clk2 : Clock) (r : Run) :
  click_refresh_now mean inp feed clk1 clk2 r
  = (fst (render mean (with_button false inp) feed clk2 (next_run r)),
     snd (render mean (with_button false inp) feed clk2 (next_run r)),
     sent (fst (render mean (with_button false inp) feed clk2 (next_run r)))).
Proof.
  unfold click_refresh_now.
  rewrite (render_button_pressed mean (with_button true inp) feed clk1
             (next_run r) eq_refl).
  change (next_run (next_run r)) with (next_run r).
  destruct (render mean (with_button false inp) feed clk2 (next_run r))
    as [r2 o2].
  reflexivity.
Qed.

(** C4, as the code has it. Pressing "Refresh now" while a quote is loaded
    stops the current run at once and reruns the script, without contacting
    the feed and without changing the session or the caches.  When
    auto-refresh is on, the rerun asks for the quote through the 15-minute
    cache.  The feed is contacted exactly when no quote is cached or the
    cached one has reached its time to live; the quote the feed then
    returns is the one loaded, stamped with the time of the rerun, cached
    and shown, and if the feed has no close the rerun stops with an
    [IndexError] and session and cache stay as they were.  Otherwise the
    cached quote is the one loaded and shown, and the cache stays as it
    was. *)
Theorem refresh_now_goes_through_cache (mean : list float -> float)
  (inp : Inputs) (feed : Feed) (clk1 clk2 : Clock) (r : Run) (q : Quote) :
  fx (session r) = Some q ->
  render mean (with_button true inp) feed clk1 (next_run r)
  = (next_run r, inl (Rerun 0))
  /\ (auto_refresh inp = true ->
      (In Intraday (snd (click_refresh_now mean inp feed clk1 clk2 r))
       <-> latest_expired (at_fetch clk2) (latest_cache r))
      /\ (forall c,
            latest_cache r = Some c ->
            fresh TTL_LATEST (at_fetch clk2) c = true ->
            session (fst (fst (click_refresh_now mean inp feed clk1 clk2 r)))
            = {| fx := Some (value c); loaded_at := Some (at_load clk2) |}
            /\ latest_cache
                 (fst (fst (click_refresh_now mean inp feed clk1 clk2 r)))
               = latest_cache r
            /\ exists rest,
                 page (fst (fst
                   (click_refresh_now mean inp feed clk1 clk2 r)))
                 = RateCard (rate (value c)) (timestamp (value c)) :: rest)
      /\ (forall q' ds,
            latest_expired (at_fetch clk2) (latest_cache r) ->
            fetch_latest_rate feed (at_fetch clk2) = (inr q', ds) ->
            session (fst (fst (click_refresh_now mean inp feed clk1 clk2 r)))
            = {| fx := Some q'; loaded_at := Some (at_load clk2) |}
            /\ latest_cache
                 (fst (fst (click_refresh_now mean inp feed clk1 clk2 r)))
               = Some {| value := q'; stored_at := at_fetch clk2 |}
            /\ exists rest,
                 page (fst (fst
                   (click_refresh_now mean inp feed clk1 clk2 r)))
                 = RateCard (rate q') (timestamp q') :: rest)
      /\ (forall e ds,
            latest_expired (at_fetch clk2) (latest_cache r) ->
            fetch_latest_rate feed (at_fetch clk2) = (inl e, ds) ->
            click_refresh_now mean inp feed clk1 clk2 r
            = ({| session := session r; latest_cache := latest_cache r;
                  history_cache := history_cache r; page := [];
                  sent := ds |}, inl (Raised IndexError), ds))).
Proof.
  intros Hfx.
  destruct (refresh_now_requests mean inp feed clk1 clk2 r q Hfx)
    as [Hpress Hreq].
  split; [ exact Hpress | ].
  intros Hauto. destruct (Hreq Hauto) as [Hiff _].
  split; [ exact Hiff | ].
  rewrite click_refresh_now_rerun. cbn [fst snd].
  set (inp2 := with_button false inp).
  assert (Hauto2 : auto_refresh inp2 = true) by exact Hauto.
  assert (Hbtn2 : refresh_now inp2 = false) by reflexivity.
  pose proof (load_data_auto inp2 feed clk2 (next_run r) Hauto2) as Hload.
  change (latest_cache (next_run r)) with (latest_cache r) in Hload.
  assert (Hloaded : forall q0 cache' ds0,
            lookup_latest feed (at_fetch clk2) (latest_cache r)
            = (inr q0, cache', ds0) ->
            session (fst (render mean inp2 feed clk2 (next_run r)))
            = {| fx := Some q0; loaded_at := Some (at_load clk2) |}
            /\ latest_cache (fst (render mean inp2 feed clk2 (next_run r)))
               = cache'
            /\ exists rest,
                 page (fst (render mean inp2 feed clk2 (next_run r)))
                 = RateCard (rate q0) (timestamp q0) :: rest).
  { intros q0 cache' ds0 EL. rewrite EL in Hload.
    rewrite (render_after_load mean inp2 feed clk2 (next_run r) _ q0
               Hbtn2 Hload).
    match goal with
    | |- context [timer_and_footer inp2 clk2 q0 ?x] => set (r7 := x)
    end.
    destruct (timer_ending_keeps _ _ _ _ _ _
                (timer_and_footer_shape inp2 clk2 q0 r7))
      as (-> & -> & _ & _ & ws & -> & _).
    unfold r7.
    destruct (after_guidance_keeps mean inp2 feed clk2 q0
                {| session :=
                     {| fx := Some q0; loaded_at := Some (at_load clk2) |};
                   latest_cache := cache';
                   history_cache := history_cache (next_run r);
                   page := page (next_run r);
                   sent := sent (next_run r) ++ ds0 |})
      as (-> & -> & series & hist365 & ds6 & ds7 & -> & _).
    cbn [session latest_cache page next_run app].
    split; [ reflexivity | split; [ reflexivity | ] ].
    eexists. reflexivity. }
  split; [ | split ].
  - intros c Hc Hfresh.
    apply (Hloaded (value c) (latest_cache r) []).
    rewrite Hc. apply lookup_latest_hit. exact Hfresh.
  - intros q' ds Hexp Hfetch.
    apply (Hloaded q' (Some {| value := q'; stored_at := at_fetch clk2 |})
             ds).
    unfold lookup_latest, latest_expired in *.
    destruct (latest_cache r) as [c | ]; [ rewrite Hexp | ];
      rewrite Hfetch; reflexivity.
  - intros e ds Hexp Hfetch.
    pose proof (fetch_latest_rate_sends_intraday feed (at_fetch clk2))
      as [_ Herr].
    rewrite Hfetch in Herr. cbn [fst] in Herr.
    rewrite (Herr e eq_refl) in Hfetch.
    assert (EL : lookup_latest feed (at_fetch clk2) (latest_cache r)
                 = (inl IndexError, latest_cache r, ds)).
    { unfold lookup_latest, latest_expired in *.
      destruct (latest_cache r) as [c | ]; [ rewrite Hexp | ];
        rewrite Hfetch; reflexivity. }
    rewrite EL in Hload.
    rewrite (render_load_stops mean inp2 feed clk2 (next_run r) _ _
               Hbtn2 Hload).
    reflexivity.
Qed.

Lemma refresh_now_goes_through_cache_witness :
  render mean_ltr (with_button true (inputs true Days7)) feed_380
    (clock_from (seconds 10) 0) (next_run warm_run)
  = (next_run warm_run, inl (Rerun 0))
  /\ (In Intraday
        (snd (click_refresh_now mean_ltr (inputs true Days7) feed_380
                (clock_from (seconds 900) 0) (clock_from (seconds 900) 0)
                warm_run))
      <-> latest_expired (seconds 900) (latest_cache warm_run))
  /\ session (fst (fst
       (click_refresh_now mean_ltr (inputs true Days7) feed_380
          (clock_from (seconds 900) 0) (clock_from (seconds 900) 0)
          warm_run)))
     = {| fx := Some {| rate := decimal 380 100;
                        timestamp := seconds 900 |};
          loaded_at := Some (seconds 900) |}
  /\ click_refresh_now mean_ltr (inputs true Days7) feed_silent
       (clock_from (seconds 900) 0) (clock_from (seconds 900) 0) warm_run
     = ({| session := session warm_run;
           latest_cache := latest_cache warm_run;
           history_cache := history_cache warm_run; page := [];
           sent := [Intraday; Daily] |},
        inl (Raised IndexError), [Intraday; Daily]).
Proof.
  split; [ | split; [ | split ] ].
  - exact (proj1 (refresh_now_goes_through_cache mean_ltr
                    (inputs true Days7) feed_380 (clock_from (seconds 10) 0)
                    (clock_from (seconds 10) 0) warm_run quote_372 eq_refl)).
  - exact (proj1 (proj2 (refresh_now_goes_through_cache mean_ltr
                    (inputs true Days7) feed_380 (clock_from (seconds 900) 0)
                    (clock_from (seconds 900) 0) warm_run quote_372 eq_refl)
                    eq_refl)).
  - apply (proj1 (proj2 (proj2 (proj2
             (refresh_now_goes_through_cache mean_ltr
                (inputs true Days7) feed_380 (clock_from (seconds 900) 0)
                (clock_from (seconds 900) 0) warm_run quote_372 eq_refl)
             eq_refl)))
             {| rate := decimal 380 100; timestamp := seconds 900 |}
             [Intraday]).
    + vm_compute. reflexivity.
    + vm_compute. reflexivity.
  - apply (proj2 (proj2 (proj2 (proj2
             (refresh_now_goes_through_cache mean_ltr
                (inputs true Days7) feed_silent (clock_from (seconds 900) 0)
                (clock_from (seconds 900) 0) warm_run quote_372 eq_refl)
             eq_refl)))
             IndexError [Intraday; Daily]).
    + vm_compute. reflexivity.
    + vm_compute. reflexivity.
Defined.

(* ===================================================================== *)
(** ** The countdown, in exact arithmetic *)
(* ===================================================================== *)

(** The countdown test [remaining < 1] is settled for every elapsed
    duration, not only for sample values: the correctly rounded division
    by a million and the subtraction from 60 are followed through the
    shifts and the rounding of [binary_round_aux], with floats compared
    as integers scaled by powers of two. *)













































